(** * espp::UdpSocket -- a shallow embedding of udp_socket.hpp

    The class talks to the operating system and to user callbacks.  The
    embedding keeps the class's own fields in a record, threads it by hand
    through the member functions, and runs every member function in a small
    monad that
      - reads the answers of the operating system from an oracle that may
        depend on everything that happened so far (the history),
      - records every system call, log call, callback invocation and wait in
        the list of events it emits, and
      - lets the user's callbacks transform a user state [U]. *)

From Stdlib Require Import ZArith NArith List Bool String Lia.
From Stdlib.Strings Require Import Byte.
Import ListNotations.
Local Open Scope string_scope.
Local Open Scope list_scope.
Local Open Scope Z_scope.

(** ** Platform constants and byte order (lwIP on a little-endian ESP32) *)

Definition AF_INET : Z := 2.
Definition SOCK_DGRAM : Z := 2.
Definition IPPROTO_IP : Z := 0.
Definition INADDR_ANY : Z := 0.

Definition SHUT_RD : Z := 0.
Definition SHUT_WR : Z := 1.
Definition SHUT_RDWR : Z := 2.

(** Conversion of a [size_t] or [int] argument to [uint16_t] / [uint32_t]. *)
Definition to_uint16 (x : Z) : Z := x mod 65536.
Definition to_uint32 (x : Z) : Z := x mod 4294967296.

Definition htons (x : Z) : Z :=
  let x := to_uint16 x in
  Z.lor (Z.shiftl (Z.land x 255) 8) (Z.shiftr (Z.land x 65280) 8).

Definition ntohs (x : Z) : Z := htons x.

Definition htonl (x : Z) : Z :=
  let x := to_uint32 x in
  Z.lor (Z.lor (Z.shiftl (Z.land x 255) 24) (Z.shiftl (Z.land x 65280) 8))
        (Z.lor (Z.shiftr (Z.land x 16711680) 8) (Z.shiftr (Z.land x 4278190080) 24)).

(** [struct sockaddr_in], fields in network byte order. *)
Record sockaddr_in := mk_sockaddr_in {
  sin_family : Z;
  sin_port : Z;
  sin_addr : Z
}.

(** ** Logger (logger.hpp is an external collaborator) *)

Inductive Verbosity := DEBUG | INFO | WARN | ERROR | NONE.

Record Logger := mk_Logger {
  tag : string;
  level : Verbosity
}.

(** ** Socket::Info and Socket::is_valid (socket_common.hpp) *)

Module Socket.

(** Modelled from the spec: Socket::is_valid of socket_common.hpp is not
    among the sources.  A descriptor is valid when it is not negative, the
    value that a failed socket() returns and that cleanup() stores. *)
Definition is_valid (socket_fd : Z) : bool := 0 <=? socket_fd.

(** Modelled from the spec: Socket::Info of socket_common.hpp is not among
    the sources.  An address and port pair plus the cached OS-level
    representation. *)
Record Info := mk_Info {
  address : string;
  port : N;
  raw : sockaddr_in
}.

Definition Info_default : Info :=
  mk_Info EmptyString 0%N (mk_sockaddr_in 0 0 0).

Definition ipv4_ptr (i : Info) : sockaddr_in := raw i.

(** Effect of a write through the pointer returned by ipv4_ptr(). *)
Definition set_raw (i : Info) (a : sockaddr_in) : Info :=
  mk_Info (address i) (port i) a.

(** Modelled from the spec: init_ipv4 sets the pair and makes the cached
    representation consistent with it. *)
Definition init_ipv4 (inet_addr : string -> Z) (i : Info)
           (addr : string) (prt : N) : Info :=
  mk_Info addr prt (mk_sockaddr_in AF_INET (htons (Z.of_N prt)) (inet_addr addr)).

(** Modelled from the spec: update() refreshes the pair from the cached
    representation, which recvfrom has filled with the sender. *)
Definition update (inet_ntoa : Z -> string) (i : Info) : Info :=
  mk_Info (inet_ntoa (sin_addr (raw i)))
          (Z.to_N (ntohs (sin_port (raw i))))
          (raw i).

End Socket.

(** ** Task (task.hpp is an external collaborator) *)

Module Task.

(** The only callable the socket ever installs:
    std::bind(&UdpSocket::server_task_function, this, buffer_size, _1, _2);
    any other callable the caller had put in the configuration is
    [user_function]. *)
Inductive callback_fn :=
| bound_server_task_function (buffer_size : N)
| user_function (name : string).

Record Config := mk_Config {
  name : string;
  callback : option callback_fn
}.

Definition set_callback (c : Config) (f : callback_fn) : Config :=
  mk_Config (name c) (Some f).

(** Modelled from the spec: the Background Worker of task.hpp is not among
    the sources.  It owns one thread, exposes start() and is_started(), and
    runs the supplied callback repeatedly until stopped. *)
Record t := mk_Task {
  config : Config;
  started_ : bool
}.

Definition make_unique (c : Config) : t := mk_Task c false.
Definition is_started (k : t) : bool := started_ k.

End Task.

(** ** The answer of recvfrom *)

Record recv_answer := mk_recv_answer {
  ra_ret : Z;                  (* the return value *)
  ra_payload : list byte;      (* the datagram, when there is one *)
  ra_from : sockaddr_in        (* its source *)
}.

Section Model.

(** [U] is the state of the user's program, which only callbacks touch;
    [duration] stands for std::chrono::duration<float>, which the class
    passes on without looking at it. *)
Context {U duration : Type}.

(** ** Events *)

Inductive Event :=
| EvSocket (domain type protocol : Z) (ret : Z)
| EvEnableReuse (fd : Z) (ok : bool)
| EvMakeMulticast (fd : Z) (ok : bool)
| EvAddMulticastGroup (fd : Z) (group : string) (ok : bool)
| EvSetReceiveTimeout (fd : Z) (timeout : duration) (ok : bool)
| EvSendto (fd : Z) (data : list byte) (dest : sockaddr_in) (ret : Z)
| EvRecvfrom (fd : Z) (len : N) (ans : recv_answer)
| EvBind (fd : Z) (addr : sockaddr_in) (ret : Z)
| EvShutdown (fd : Z) (how : Z)
| EvClose (fd : Z)
| EvLog (lvl : Verbosity) (fmt : string)
| EvResponseCallback (data : list byte)
| EvReceiveCallback (data : list byte) (sender : Socket.Info)
                    (response : option (list byte))
| EvTaskStart (cb : option Task.callback_fn)
| EvWaitFor (milliseconds : Z).

(** ** The operating system and the helpers of socket_common.hpp that wrap
    setsockopt, as an oracle over the history *)

Record OS := mk_OS {
  os_socket : list Event -> Z -> Z -> Z -> Z;
  os_enable_reuse : list Event -> Z -> bool;
  os_make_multicast : list Event -> Z -> bool;
  os_add_multicast_group : list Event -> Z -> string -> bool;
  os_set_receive_timeout : list Event -> Z -> duration -> bool;
  os_sendto : list Event -> Z -> list byte -> sockaddr_in -> Z;
  os_recvfrom : list Event -> Z -> N -> recv_answer;
  os_bind : list Event -> Z -> sockaddr_in -> Z;
  inet_addr : string -> Z;
  inet_ntoa : Z -> string
}.

(** ** The monad *)

Record Run (A : Type) := mk_Run {
  value : A;
  emitted : list Event;
  user : U
}.
Arguments mk_Run {A}.
Arguments value {A}.
Arguments emitted {A}.
Arguments user {A}.

Definition M (A : Type) : Type := list Event -> U -> Run A.

Definition ret {A} (a : A) : M A := fun _ u => mk_Run a [] u.

Definition bind {A B} (m : M A) (f : A -> M B) : M B :=
  fun h u =>
    match m h u with
    | mk_Run a e1 u1 =>
      match f a (h ++ e1) u1 with
      | mk_Run b e2 u2 => mk_Run b (e1 ++ e2) u2
      end
    end.

Definition emit (e : Event) : M unit := fun _ u => mk_Run tt [e] u.

Definition ask {A} (q : list Event -> A) : M A := fun h u => mk_Run (q h) [] u.

Definition call_user {A} (f : U -> A * U) : M A :=
  fun _ u => mk_Run (fst (f u)) [] (snd (f u)).

Notation "x <- m ;; k" := (bind m (fun x => k))
  (at level 61, m at next level, right associativity).
Notation "m ;; k" := (bind m (fun _ => k))
  (at level 61, right associativity).

(** ** Callback types *)

(** std::function<std::optional<std::vector<uint8_t>>(std::vector<uint8_t>&,
    const Socket::Info&)> *)
Definition receive_callback_fn : Type :=
  list byte -> Socket.Info -> U -> option (list byte) * U.

(** std::function<void(std::vector<uint8_t>&)> *)
Definition response_callback_fn : Type := list byte -> U -> U.

(** ** Configurations *)

Record Config := mk_Config {
  log_level : Verbosity
}.

Record ReceiveConfig := mk_ReceiveConfig {
  rc_port : N;
  buffer_size : N;
  rc_is_multicast_endpoint : bool;
  multicast_group : string;
  on_receive_callback : option receive_callback_fn
}.

Record SendConfig := mk_SendConfig {
  ip_address : string;
  sc_port : N;
  sc_is_multicast_endpoint : bool;
  wait_for_response : bool;
  response_size : N;
  on_response_callback : option response_callback_fn;
  response_timeout : duration
}.

(** ** The object *)

Record UdpSocket := mk_UdpSocket {
  socket_ : Z;
  task_ : option Task.t;
  server_receive_callback_ : option receive_callback_fn;
  logger_ : Logger
}.

Definition set_socket_ (self : UdpSocket) (fd : Z) : UdpSocket :=
  mk_UdpSocket fd (task_ self) (server_receive_callback_ self) (logger_ self).
Definition set_task_ (self : UdpSocket) (k : option Task.t) : UdpSocket :=
  mk_UdpSocket (socket_ self) k (server_receive_callback_ self) (logger_ self).
Definition set_server_receive_callback_ (self : UdpSocket)
           (f : option receive_callback_fn) : UdpSocket :=
  mk_UdpSocket (socket_ self) (task_ self) f (logger_ self).

Variable os : OS.

(** ** Primitives: each consults the oracle at the current history and
    records the call with its answer *)

Definition log (lvl : Verbosity) (fmt : string) : M unit := emit (EvLog lvl fmt).

Definition sys_socket (domain type protocol : Z) : M Z :=
  fd <- ask (fun h => os_socket os h domain type protocol) ;;
  emit (EvSocket domain type protocol fd) ;;
  ret fd.

Definition enable_reuse (fd : Z) : M bool :=
  ok <- ask (fun h => os_enable_reuse os h fd) ;;
  emit (EvEnableReuse fd ok) ;;
  ret ok.

Definition make_multicast (fd : Z) : M bool :=
  ok <- ask (fun h => os_make_multicast os h fd) ;;
  emit (EvMakeMulticast fd ok) ;;
  ret ok.

Definition add_multicast_group (fd : Z) (group : string) : M bool :=
  ok <- ask (fun h => os_add_multicast_group os h fd group) ;;
  emit (EvAddMulticastGroup fd group ok) ;;
  ret ok.

Definition set_receive_timeout (fd : Z) (timeout : duration) : M bool :=
  ok <- ask (fun h => os_set_receive_timeout os h fd timeout) ;;
  emit (EvSetReceiveTimeout fd timeout ok) ;;
  ret ok.

Definition sendto (fd : Z) (data : list byte) (dest : sockaddr_in) : M Z :=
  n <- ask (fun h => os_sendto os h fd data dest) ;;
  emit (EvSendto fd data dest n) ;;
  ret n.

Definition sys_bind (fd : Z) (addr : sockaddr_in) : M Z :=
  err <- ask (fun h => os_bind os h fd addr) ;;
  emit (EvBind fd addr err) ;;
  ret err.

Definition shutdown (fd : Z) (how : Z) : M unit := emit (EvShutdown fd how).

Definition close (fd : Z) : M unit := emit (EvClose fd).

(** What the datagram leaves in a buffer: its bytes, cut at the buffer's
    length, over the buffer's old contents. *)
Definition overwrite (buffer payload : list byte) : list byte :=
  firstn (List.length buffer) payload ++ skipn (List.length payload) buffer.

(** recvfrom fills the buffer and the source address when it succeeds and
    leaves both alone when it fails. *)
Definition recvfrom (fd : Z) (buffer : list byte) (src_addr : sockaddr_in)
  : M (Z * list byte * sockaddr_in) :=
  a <- ask (fun h => os_recvfrom os h fd (N.of_nat (List.length buffer))) ;;
  emit (EvRecvfrom fd (N.of_nat (List.length buffer)) a) ;;
  if ra_ret a <? 0
  then ret (ra_ret a, buffer, src_addr)
  else ret (ra_ret a, overwrite buffer (ra_payload a), ra_from a).

(** cv.wait_for(lk, 1ms) *)
Definition wait_for (milliseconds : Z) : M unit := emit (EvWaitFor milliseconds).

(** Modelled from the spec: Task::start() of task.hpp launches the worker
    thread, after which is_started() holds. *)
Definition Task_start (k : Task.t) : M Task.t :=
  emit (EvTaskStart (Task.callback (Task.config k))) ;;
  ret (Task.mk_Task (Task.config k) true).

(** ** UdpSocket::receive *)

Definition receive (max_num_bytes : N) (data : list byte)
           (remote_info : Socket.Info) (self : UdpSocket)
  : M (bool * list byte * Socket.Info) :=
  if negb (Socket.is_valid (socket_ self)) then
    log ERROR "Socket invalid, cannot receive." ;;
    ret (false, data, remote_info)
  else
    let remote_address := Socket.ipv4_ptr remote_info in
    let receive_buffer := repeat x00 (N.to_nat max_num_bytes) in
    log INFO "Receiving up to {} bytes" ;;
    r <- recvfrom (socket_ self) receive_buffer remote_address ;;
    let num_bytes_received := fst (fst r) in
    let receive_buffer := snd (fst r) in
    let remote_info := Socket.set_raw remote_info (snd r) in
    if num_bytes_received <? 0 then
      log ERROR "Receive failed: {} - '{}'" ;;
      ret (false, data, remote_info)
    else
      let data := firstn (Z.to_nat num_bytes_received) receive_buffer in
      let remote_info := Socket.update (inet_ntoa os) remote_info in
      log DEBUG "Received {} bytes from {}" ;;
      ret (true, data, remote_info).

(** ** UdpSocket::send *)

Definition send (data : list byte) (send_config : SendConfig)
           (self : UdpSocket) : M bool :=
  if negb (Socket.is_valid (socket_ self)) then
    log ERROR "Socket invalid, cannot send" ;;
    ret false
  else
    returned <-
      (if sc_is_multicast_endpoint send_config then
         ok <- make_multicast (socket_ self) ;;
         if negb ok then
           log ERROR "Cannot make multicast: {} - '{}'" ;;
           ret (Some false)
         else ret None
       else ret None) ;;
    match returned with
    | Some b => ret b
    | None =>
      ok <- set_receive_timeout (socket_ self) (response_timeout send_config) ;;
      if negb ok then
        log ERROR "Could not set receive timeout to {}: {} - '{}'" ;;
        ret false
      else
        let server_info :=
          Socket.init_ipv4 (inet_addr os) Socket.Info_default
                           (ip_address send_config) (sc_port send_config) in
        let server_address := Socket.ipv4_ptr server_info in
        log INFO "Client sending {} bytes to {}:{}" ;;
        num_bytes_sent <- sendto (socket_ self) data server_address ;;
        if num_bytes_sent <? 0 then
          log ERROR "Error occurred during sending: {} - '{}'" ;;
          ret false
        else
          log DEBUG "Client sent {} bytes" ;;
          if negb (wait_for_response send_config) then ret true
          else if (response_size send_config =? 0)%N then
            log WARN "Response requested, but response_size=0, not waiting for response!" ;;
            ret true
          else
            let received_data := [] in
            log INFO "Client waiting for response" ;;
            r <- receive (response_size send_config) received_data server_info self ;;
            let received_data := snd (fst r) in
            if negb (fst (fst r)) then
              log WARN "Client could not get response" ;;
              ret false
            else
              log INFO "Client got {} bytes of response" ;;
              match on_response_callback send_config with
              | Some cb =>
                log DEBUG "Client calling response callback" ;;
                emit (EvResponseCallback received_data) ;;
                call_user (fun u => (tt, cb received_data u)) ;;
                ret true
              | None => ret true
              end
    end.

(** ** UdpSocket::server_task_function *)

Definition server_task_function (buffer_size : N) (self : UdpSocket) : M unit :=
  let received_data := [] in
  let sender_info := Socket.Info_default in
  r <- receive buffer_size received_data sender_info self ;;
  let received_data := snd (fst r) in
  let sender_info := snd r in
  if negb (fst (fst r)) then
    wait_for 1 ;;
    ret tt
  else
    match server_receive_callback_ self with
    | None =>
      log ERROR "Server receive callback is invalid" ;;
      ret tt
    | Some cb =>
      maybe_response <- call_user (cb received_data sender_info) ;;
      emit (EvReceiveCallback received_data sender_info maybe_response) ;;
      match maybe_response with
      | None => ret tt
      | Some response =>
        log INFO "Server responding to {} with message of length {}" ;;
        let sender_address := Socket.ipv4_ptr sender_info in
        num_bytes_sent <- sendto (socket_ self) response sender_address ;;
        (if num_bytes_sent <? 0
         then log ERROR "Error occurred responding: {} - '{}'"
         else ret tt) ;;
        log INFO "Server responded with {} bytes" ;;
        ret tt
      end
    end.

(** ** UdpSocket::start_receiving.  The task configuration is passed by
    reference and written, so it is returned with the object. *)

Definition start_receiving (task_config : Task.Config)
           (receive_config : ReceiveConfig) (self : UdpSocket)
  : M (bool * Task.Config * UdpSocket) :=
  if match task_ self with
     | Some k => Task.is_started k
     | None => false
     end
  then
    log ERROR "Server is alrady receiving" ;;
    ret (false, task_config, self)
  else if negb (Socket.is_valid (socket_ self)) then
    log ERROR "Socket invalid, cannot start receiving." ;;
    ret (false, task_config, self)
  else
    let self := set_server_receive_callback_ self
                  (on_receive_callback receive_config) in
    let server_addr :=
      mk_sockaddr_in AF_INET
                     (htons (Z.of_N (rc_port receive_config)))
                     (htonl INADDR_ANY) in
    err <- sys_bind (socket_ self) server_addr ;;
    if err <? 0 then
      log ERROR "Unable to bind: {} - '{}'" ;;
      ret (false, task_config, self)
    else
      returned <-
        (if rc_is_multicast_endpoint receive_config then
           ok <- make_multicast (socket_ self) ;;
           if negb ok then
             log ERROR "Unable to make bound socket multicast: {} - '{}'" ;;
             ret (Some false)
           else
             ok <- add_multicast_group (socket_ self)
                                       (multicast_group receive_config) ;;
             if negb ok then
               log ERROR "Unable to add multicast group to bound socket: {} - '{}'" ;;
               ret (Some false)
             else ret None
         else ret None) ;;
      match returned with
      | Some b => ret (b, task_config, self)
      | None =>
        let task_config :=
          Task.set_callback task_config
            (Task.bound_server_task_function (buffer_size receive_config)) in
        k <- Task_start (Task.make_unique task_config) ;;
        let self := set_task_ self (Some k) in
        ret (true, task_config, self)
      end.

(** ** UdpSocket::init, the constructor, cleanup and the destructor *)

Definition init (self : UdpSocket) : M (bool * UdpSocket) :=
  fd <- sys_socket AF_INET SOCK_DGRAM IPPROTO_IP ;;
  let self := set_socket_ self fd in
  if negb (Socket.is_valid (socket_ self)) then
    log ERROR "Cannot create socket: {} - '{}'" ;;
    ret (false, self)
  else
    ok <- enable_reuse (socket_ self) ;;
    if negb ok then
      log ERROR "Cannot enable reuse: {} - '{}'" ;;
      ret (false, self)
    else ret (true, self).

(** The constructor builds the logger and calls init(), whose result it
    drops.  [socket_] has no initialiser; [uninitialised] is whatever the
    member holds before init() assigns it. *)
Definition UdpSocket_ctor (uninitialised : Z) (config : Config) : M UdpSocket :=
  let self := mk_UdpSocket uninitialised None None
                           (mk_Logger "UdpSocket" (log_level config)) in
  r <- init self ;;
  ret (snd r).

Definition cleanup (self : UdpSocket) : M UdpSocket :=
  if Socket.is_valid (socket_ self) then
    shutdown (socket_ self) 0 ;;
    close (socket_ self) ;;
    let self := set_socket_ self (-1) in
    log INFO "Closed socket" ;;
    ret self
  else ret self.

Definition UdpSocket_dtor (self : UdpSocket) : M UdpSocket :=
  cleanup self.

(** Modelled from the spec: the Background Worker of task.hpp runs the
    installed callback again and again while it is started; [rounds] bounds
    how long the run is observed. *)
Fixpoint Task_run (rounds : nat) (self : UdpSocket) : M unit :=
  match rounds with
  | O => ret tt
  | S rounds' =>
    match task_ self with
    | Some (Task.mk_Task (Task.mk_Config _ (Some (Task.bound_server_task_function n))) true) =>
      server_task_function n self ;;
      Task_run rounds' self
    | _ => ret tt
    end
  end.

(** The first of the two checks start_receiving makes:
    task_ && task_->is_started(). *)
Definition worker_active (self : UdpSocket) : bool :=
  match task_ self with
  | Some k => Task.is_started k
  | None => false
  end.

(** Descriptor allocation failed: socket() returned an invalid
    descriptor. *)
Definition allocation_failed (evs : list Event) : Prop :=
  exists domain type protocol fd,
    In (EvSocket domain type protocol fd) evs
    /\ Socket.is_valid fd = false.

(** Enabling address reuse failed. *)
Definition reuse_failed (evs : list Event) : Prop :=
  exists fd, In (EvEnableReuse fd false) evs.

(** ** Reading a list of events *)

Definition is_log (e : Event) : bool :=
  match e with EvLog _ _ => true | _ => false end.

Definition is_recvfrom (e : Event) : bool :=
  match e with EvRecvfrom _ _ _ => true | _ => false end.

Definition is_callback (e : Event) : bool :=
  match e with
  | EvResponseCallback _ | EvReceiveCallback _ _ _ => true
  | _ => false
  end.

(** The events that are not log calls. *)
Definition actions (evs : list Event) : list Event :=
  filter (fun e => negb (is_log e)) evs.

(** What send may still do once the datagram is out: the receive and the
    response callback. *)
Definition is_response_step (e : Event) : bool :=
  match e with
  | EvRecvfrom _ _ _ | EvResponseCallback _ => true
  | _ => false
  end.

(** The outbound transmission succeeded. *)
Definition transmitted (evs : list Event) : Prop :=
  exists fd data dest n, In (EvSendto fd data dest n) evs /\ 0 <= n.

End Model.

Arguments mk_Run {U duration A}.
Arguments value {U duration A}.
Arguments emitted {U duration A}.
Arguments user {U duration A}.

(** ** A concrete world, to run the member functions in

    The user's state is the list of payloads its callbacks were given, newest
    first; a duration is a number of milliseconds. *)

Module Scenario.

Definition PING : list byte := [x50; x49; x4e; x47].
Definition PONG : list byte := [x50; x4f; x4e; x47].

(** 127.0.0.1, port 5000, as the peer's address in network byte order *)
Definition peer : sockaddr_in := mk_sockaddr_in AF_INET (htons 5000) 16777343.

(** An operating system that gives the same answer whatever happened
    before. *)
Definition fixed_os (fd : Z) (reuse multicast group timeout : bool)
           (sent : Z) (ans : recv_answer) (bound : Z) : @OS Z :=
  mk_OS (fun _ _ _ _ => fd)
        (fun _ _ => reuse)
        (fun _ _ => multicast)
        (fun _ _ _ => group)
        (fun _ _ _ => timeout)
        (fun _ _ _ _ => sent)
        (fun _ _ _ => ans)
        (fun _ _ _ => bound)
        (fun _ => 16777343)
        (fun _ => "127.0.0.1").

Definition pong : recv_answer := mk_recv_answer 4 PONG peer.
Definition timed_out : recv_answer := mk_recv_answer (-1) [] (mk_sockaddr_in 0 0 0).

(** Everything works and the peer answers PONG. *)
Definition good_os : @OS Z := fixed_os 3 true true true true 4 pong 0.

(** Everything works but nobody answers. *)
Definition silent_os : @OS Z := fixed_os 3 true true true true 4 timed_out 0.

(** socket() succeeds, enabling address reuse does not. *)
Definition no_reuse_os : @OS Z := fixed_os 3 false true true true 4 pong 0.

(** socket() fails. *)
Definition no_socket_os : @OS Z := fixed_os (-1) true true true true 4 pong 0.

(** bind() fails. *)
Definition no_bind_os : @OS Z := fixed_os 3 true true true true 4 pong (-1).

(** Joining the multicast group fails. *)
Definition no_group_os : @OS Z := fixed_os 3 true true false true 4 pong 0.

(** The first receive times out, the later ones bring PONG. *)
Definition flaky_os : @OS Z :=
  mk_OS (fun _ _ _ _ => 3)
        (fun _ _ => true)
        (fun _ _ => true)
        (fun _ _ _ => true)
        (fun _ _ _ => true)
        (fun _ _ _ _ => 4)
        (fun h _ _ => if existsb is_recvfrom h then pong else timed_out)
        (fun _ _ _ => 0)
        (fun _ => 16777343)
        (fun _ => "127.0.0.1").

Definition remember : @response_callback_fn (list (list byte)) :=
  fun data seen => data :: seen.

Definition echo : @receive_callback_fn (list (list byte)) :=
  fun data _ seen => (Some data, data :: seen).

Definition opened : @UdpSocket (list (list byte)) :=
  mk_UdpSocket 3 None None (mk_Logger "UdpSocket" WARN).

Definition ping_config : @SendConfig (list (list byte)) Z :=
  mk_SendConfig "127.0.0.1" 5000 false true 4 (Some remember) 500.

Definition fire_and_forget : @SendConfig (list (list byte)) Z :=
  mk_SendConfig "127.0.0.1" 5000 false false 0 None 500.

Definition zero_size_config : @SendConfig (list (list byte)) Z :=
  mk_SendConfig "127.0.0.1" 5000 false true 0 (Some remember) 500.

Definition server_config : @ReceiveConfig (list (list byte)) :=
  mk_ReceiveConfig 5000 64 false EmptyString (Some echo).

Definition multicast_server_config : @ReceiveConfig (list (list byte)) :=
  mk_ReceiveConfig 5000 64 true "239.1.1.1" (Some echo).

Definition worker_config : Task.Config := Task.mk_Config "udp_server" None.

(** The start: nothing has happened and the callbacks have seen nothing. *)
Definition nothing_yet : list (@Event Z) := [].
Definition blank : list (list byte) := [].

End Scenario.

(** * More of udp_socket.hpp: further readings of a list of events *)

Section EventClasses.

Context {duration : Type}.

Definition is_sendto (e : @Event duration) : bool :=
  match e with EvSendto _ _ _ _ => true | _ => false end.

Definition is_close (e : @Event duration) : bool :=
  match e with EvClose _ => true | _ => false end.

Definition is_task_start (e : @Event duration) : bool :=
  match e with EvTaskStart _ => true | _ => false end.

(** The calls that create, shut down or release a descriptor. *)
Definition is_lifecycle (e : @Event duration) : bool :=
  match e with
  | EvSocket _ _ _ _ | EvShutdown _ _ | EvClose _ => true
  | _ => false
  end.

End EventClasses.

(** * espp::Ili9341 -- a shallow embedding of ili9341.hpp

    The driver only talks outwards: it sets the level of the data/command
    pin and hands buffers to the write function it was configured with.  A
    member function is modelled by the list of the calls it makes, in
    order. *)

Module Ili9341.

Definition to_uint8 (x : Z) : Z := x mod 256.

(** Conversion of a 32-bit unsigned value to [int]. *)
Definition to_int32 (x : Z) : Z :=
  let x := to_uint32 x in
  if x <? 2147483648 then x else x - 4294967296.

(** Conversion to lv_coord_t, LVGL's int16_t. *)
Definition to_int16 (x : Z) : Z :=
  let x := to_uint16 x in
  if x <? 32768 then x else x - 65536.

(** display_drivers::Mode, the level of the data/command pin. *)
Inductive Mode := COMMAND | DATA.

(** Display::Signal, the flags of a transfer. *)
Inductive Signal := NONE | FLUSH.

(** The calls the driver makes.  [LcdWrite] records the buffer its pointer
    argument points to, the length and the flags. *)
Inductive Call :=
| InitPins (reset dc backlight : Z) (backlight_on_value : bool)
| GpioSetLevel (pin : Z) (level : Mode)
| LcdWrite (buffer : list Z) (length : Z) (flags : Signal)
| SleepFor (milliseconds : Z).

(** display_drivers::Config, without the write function, whose calls are
    recorded as [LcdWrite]. *)
Record Config := mk_Config {
  reset_pin : Z;
  data_command_pin : Z;
  backlight_pin : Z;
  backlight_on_value : bool;
  invert_colors : bool;
  offset_x : Z;
  offset_y : Z
}.

(** display_drivers::LcdInitCmd *)
Record LcdInitCmd := mk_LcdInitCmd {
  command : Z;
  data : list Z;
  length : Z
}.

(** lv_area_t, coordinates of type lv_coord_t *)
Record lv_area_t := mk_lv_area_t {
  x1 : Z;
  y1 : Z;
  x2 : Z;
  y2 : Z
}.

(** LVGL's lv_area_get_width and lv_area_get_height *)
Definition lv_area_get_width (area : lv_area_t) : Z :=
  to_int16 (x2 area - x1 area + 1).

Definition lv_area_get_height (area : lv_area_t) : Z :=
  to_int16 (y2 area - y1 area + 1).

(** The static members. *)
Record Statics := mk_Statics {
  reset_pin_ : Z;
  dc_pin_ : Z;
  backlight_pin_ : Z;
  offset_x_ : Z;
  offset_y_ : Z
}.

Definition caset : Z := 0x2a.
Definition raset : Z := 0x2b.
Definition ramwr : Z := 0x2c.

Definition send_command (s : Statics) (cmd : Z) : list Call :=
  [GpioSetLevel (dc_pin_ s) COMMAND; LcdWrite [cmd] 1 NONE].

Definition send_data (s : Statics) (buffer : list Z) (len : Z) (flags : Signal)
  : list Call :=
  [GpioSetLevel (dc_pin_ s) DATA; LcdWrite buffer len flags].

(** uint8_t data[4] filled from two uint16_t values, high byte first. *)
Definition address_bytes (first last : Z) : list Z :=
  [Z.land (Z.shiftr first 8) 0xFF; Z.land first 0xFF;
   Z.land (Z.shiftr last 8) 0xFF; Z.land last 0xFF].

(** The table is walked from the entry [cmd] points to; [None] is a read
    past the end of the table.  The index [cmd] is a uint16_t, which does
    not wrap on a table of fewer than 65536 entries. *)
Fixpoint send_commands (s : Statics) (commands : list LcdInitCmd)
  : option (list Call) :=
  match commands with
  | [] => None
  | c :: rest =>
    if length c =? 0xff then Some []
    else
      match send_commands s rest with
      | None => None
      | Some later =>
        Some (send_command s (command c)
              ++ send_data s (data c) (Z.land (length c) 0x1F) NONE
              ++ (if Z.land (length c) 0x80 =? 0 then [] else [SleepFor 100])
              ++ later)
      end
  end.

(** The table of initialize.  An entry's data array is given by its
    initialisers; the bytes after them are zero. *)
Definition ili_init_cmds : list LcdInitCmd :=
  [mk_LcdInitCmd 0xCF [0x00; 0x83; 0x30] 3;
   mk_LcdInitCmd 0xED [0x64; 0x03; 0x12; 0x81] 4;
   mk_LcdInitCmd 0xE8 [0x85; 0x01; 0x79] 3;
   mk_LcdInitCmd 0xCB [0x39; 0x2C; 0x00; 0x34; 0x02] 5;
   mk_LcdInitCmd 0xF7 [0x20] 1;
   mk_LcdInitCmd 0xEA [0x00; 0x00] 2;
   mk_LcdInitCmd 0xC0 [0x26] 1;
   mk_LcdInitCmd 0xC1 [0x11] 1;
   mk_LcdInitCmd 0xC5 [0x35; 0x3E] 2;
   mk_LcdInitCmd 0xC7 [0xBE] 1;
   mk_LcdInitCmd 0x36 [0x28] 1;
   mk_LcdInitCmd 0x3A [0x55] 1;
   mk_LcdInitCmd 0xB1 [0x00; 0x1B] 2;
   mk_LcdInitCmd 0xF2 [0x08] 1;
   mk_LcdInitCmd 0x26 [0x01] 1;
   mk_LcdInitCmd 0xE0 [0x1F; 0x1A; 0x18; 0x0A; 0x0F; 0x06; 0x45; 0x87;
                       0x32; 0x0A; 0x07; 0x02; 0x07; 0x05; 0x00] 15;
   mk_LcdInitCmd 0xE1 [0x00; 0x25; 0x27; 0x05; 0x10; 0x09; 0x3A; 0x78;
                       0x4D; 0x05; 0x18; 0x0D; 0x38; 0x3A; 0x1F] 15;
   mk_LcdInitCmd 0x2A [0x00; 0x00; 0x00; 0xEF] 4;
   mk_LcdInitCmd 0x2B [0x00; 0x00; 0x01; 0x3f] 4;
   mk_LcdInitCmd 0x2C [0] 0;
   mk_LcdInitCmd 0xB7 [0x07] 1;
   mk_LcdInitCmd 0xB6 [0x0A; 0x82; 0x27; 0x00] 4;
   mk_LcdInitCmd 0x11 [0] 0x80;
   mk_LcdInitCmd 0x29 [0] 0x80;
   mk_LcdInitCmd 0 [0] 0xff].

Definition initialize (config : Config) : Statics * option (list Call) :=
  let s := mk_Statics (reset_pin config) (data_command_pin config)
                      (backlight_pin config)
                      (offset_x config) (offset_y config) in
  (s,
   match send_commands s ili_init_cmds with
   | None => None
   | Some sent =>
     Some (InitPins (reset_pin_ s) (dc_pin_ s) (backlight_pin_ s)
                    (backlight_on_value config)
           :: sent
           ++ (if invert_colors config
               then send_command s 0x21
               else send_command s 0x20))
   end).

Definition fill (s : Statics) (area : lv_area_t) (color_map : list Z)
           (flags : Signal) : list Call :=
  let start_x := to_uint16 (x1 area + offset_x_ s) in
  let end_x := to_uint16 (x2 area + offset_x_ s) in
  let start_y := to_uint16 (y1 area + offset_y_ s) in
  let end_y := to_uint16 (y2 area + offset_y_ s) in
  let size := to_uint32 (lv_area_get_width area * lv_area_get_height area) in
  send_command s caset
  ++ send_data s (address_bytes start_x end_x) 4 NONE
  ++ send_command s raset
  ++ send_data s (address_bytes start_y end_y) 4 NONE
  ++ send_command s ramwr
  ++ send_data s color_map (to_uint32 (size * 2)) flags.

Definition flush (s : Statics) (area : lv_area_t) (color_map : list Z)
  : list Call :=
  fill s area color_map FLUSH.

Definition max_bytes_to_send : Z := 1024 * 2.

(** The loop of clear, from the value [i] on.  [i] is an [int]; its
    arithmetic is exact as long as it does not overflow, which holds for
    size <= 2^31 - 2048.  [None] is a run out of [fuel]. *)
Fixpoint clear_loop (fuel : nat) (s : Statics) (color_data : list Z)
         (size i : Z) : option (list Call) :=
  match fuel with
  | O => None
  | S fuel' =>
    if to_uint32 i <? size then
      let num_bytes := Z.min (to_int32 (size - i)) max_bytes_to_send in
      match clear_loop fuel' s color_data size (i + max_bytes_to_send) with
      | None => None
      | Some later =>
        Some (send_data s color_data (to_uint32 (num_bytes * 2)) NONE ++ later)
      end
    else Some []
  end.

Definition clear (fuel : nat) (s : Statics) (x y width height color : Z)
  : option (list Call) :=
  let start_x := to_uint16 (to_uint32 (x + offset_x_ s)) in
  let end_x := to_uint16 (to_uint32 (to_uint32 (x + width) + offset_x_ s)) in
  let start_y := to_uint16 (to_uint32 (y + offset_y_ s)) in
  let end_y := to_uint16 (to_uint32 (to_uint32 (y + width) + offset_y_ s)) in
  let size := to_uint32 (width * height) in
  let color_data :=
    repeat (to_uint8 color) (Z.to_nat (max_bytes_to_send * 2)) in
  match clear_loop fuel s color_data size 0 with
  | None => None
  | Some filled =>
    Some (send_command s caset
          ++ send_data s (address_bytes start_x end_x) 4 NONE
          ++ send_command s raset
          ++ send_data s (address_bytes start_y end_y) 4 NONE
          ++ send_command s ramwr
          ++ filled)
  end.

Definition set_offset (s : Statics) (x y : Z) : Statics :=
  mk_Statics (reset_pin_ s) (dc_pin_ s) (backlight_pin_ s) x y.

Definition get_offset (s : Statics) : Z * Z := (offset_x_ s, offset_y_ s).


(** The number of rounds of the loop of clear for [size] pixels. *)
Definition rounds (size : Z) : Z := (size + 2047) / 2048.

(** ** Reading a list of calls *)

(** The lengths passed to the write function, in order. *)
Fixpoint written (calls : list Call) : list Z :=
  match calls with
  | [] => []
  | LcdWrite _ len _ :: rest => len :: written rest
  | _ :: rest => written rest
  end.

Definition sum (l : list Z) : Z := fold_right Z.add 0 l.

(** A 16-bit value read back from its two bytes, high byte first. *)
Definition address_of (high low : Z) : Z := 256 * high + low.

End Ili9341.

(** * espp::NVSHandle -- a shallow embedding of the key-value storage handle

    The class wraps the handle of the vendor's flash storage.  A member
    function is modelled by what it leaves in its reference arguments (the
    value and the error code) and by the list of the calls it makes on the
    vendor's handle and on the logger.  [None] is a call through the handle
    when the handle is null. *)

Module Nvs.

Definition ESP_OK : Z := 0.
Definition ESP_ERR_NVS_NOT_FOUND : Z := 0x1102.

Inductive NvsErrc :=
| Namespace_Length_Too_Long
| Key_Length_Too_Long
| Open_NVS_Handle_Failed
| Write_NVS_Failed
| Commit_NVS_Failed
| Read_NVS_Failed
| Key_Not_Found.

Inductive category := other_category | theNvsErrCategory.

(** std::error_code: an int and a category. *)
Record error_code := mk_error_code {
  ec_value : Z;
  ec_category : category
}.

(** explicit operator bool of std::error_code *)
Definition is_set (ec : error_code) : bool := negb (ec_value ec =? 0).

(** std::string::resize *)
Definition resize (value : list byte) (len : N) : list byte :=
  firstn (N.to_nat len) value
  ++ repeat x00 (N.to_nat len - List.length value).

Section Handle.

(** [T] is the type a template member function is used at; [code] is
    static_cast<int> on NvsErrc, whose enumerator values are declared in a
    header that is not among the sources. *)
Context {T : Type}.
Variable code : NvsErrc -> Z.

Inductive Call :=
| LogError (fmt : string)
| OpenNvsHandle (ns_name : string)
| GetItem (key : string)
| SetItem (key : string) (value : T)
| GetItemSize (key : string)
| GetString (key : string) (len : N)
| SetString (key : string) (value : list byte)
| Commit.

(** The vendor's nvs::NVSHandle: what each of its member functions
    answers.  get_string is taken to write the buffer only when it
    succeeds. *)
Record Handle := mk_Handle {
  get_item : string -> Z * T;
  set_item : string -> T -> Z;
  get_item_size : string -> Z * N;
  get_string : string -> N -> Z * list byte;
  set_string : string -> list byte -> Z;
  commit_ : Z
}.

(** The object: its handle, null or not. *)
Record NVSHandle := mk_NVSHandle {
  handle : option Handle
}.

(** What a member function leaves behind. *)
Record Outcome (V : Type) := mk_Outcome {
  out_value : V;
  out_ec : error_code;
  out_calls : list Call
}.
Arguments mk_Outcome {V}.
Arguments out_value {V}.
Arguments out_ec {V}.
Arguments out_calls {V}.

Definition make_error_code (e : NvsErrc) : error_code :=
  mk_error_code (code e) theNvsErrCategory.

Definition check_key_length (key : string) (ec : error_code)
  : error_code * list Call :=
  if (15 <? String.length key)%nat then
    (make_error_code Key_Length_Too_Long,
     [LogError "Key too long, must be <= 15 characters: {}"])
  else (ec, []).

(** The constructor; [open] is nvs::open_nvs_handle. *)
Definition NVSHandle_ctor (open : string -> option Handle * Z)
           (ns_name : string) (ec : error_code) : Outcome NVSHandle :=
  if (15 <? String.length ns_name)%nat then
    mk_Outcome (mk_NVSHandle None)
               (make_error_code Namespace_Length_Too_Long)
               [LogError "Namespace too long, must be <= 15 characters: {}"]
  else
    let opened := open ns_name in
    if negb (snd opened =? ESP_OK) then
      mk_Outcome (mk_NVSHandle (fst opened))
                 (make_error_code Open_NVS_Handle_Failed)
                 [OpenNvsHandle ns_name;
                  LogError "Error {} opening NVS handle for namespace '{}'!"]
    else
      mk_Outcome (mk_NVSHandle (fst opened)) ec [OpenNvsHandle ns_name].

(** template <typename T> void get(const char *key, T &value, ec) *)
Definition get (self : NVSHandle) (key : string) (value : T)
           (ec : error_code) : option (Outcome T) :=
  let checked := check_key_length key ec in
  let ec := fst checked in
  if is_set ec then Some (mk_Outcome value ec (snd checked))
  else
    match handle self with
    | None => None
    | Some hd =>
      let err := fst (get_item hd key) in
      let readvalue := snd (get_item hd key) in
      if err =? ESP_OK then
        Some (mk_Outcome readvalue ec (snd checked ++ [GetItem key]))
      else if err =? ESP_ERR_NVS_NOT_FOUND then
        Some (mk_Outcome
                value (make_error_code Key_Not_Found)
                (snd checked
                 ++ [GetItem key;
                     LogError "The value is not initialized in NVS, key = '{}'"]))
      else
        Some (mk_Outcome
                value (make_error_code Read_NVS_Failed)
                (snd checked ++ [GetItem key; LogError "Error {} reading!"]))
    end.

(** void get(const char *key, std::string &value, ec) *)
Definition get_str (self : NVSHandle) (key : string) (value : list byte)
           (ec : error_code) : option (Outcome (list byte)) :=
  let checked := check_key_length key ec in
  let ec := fst checked in
  if is_set ec then Some (mk_Outcome value ec (snd checked))
  else
    match handle self with
    | None => None
    | Some hd =>
      let err := fst (get_item_size hd key) in
      let len := snd (get_item_size hd key) in
      if negb (err =? ESP_OK) then
        Some (mk_Outcome
                value (make_error_code Read_NVS_Failed)
                (snd checked ++ [GetItemSize key; LogError "Error {} reading!"]))
      else
        let value := resize value len in
        let err := fst (get_string hd key len) in
        if negb (err =? ESP_OK) then
          Some (mk_Outcome
                  value (make_error_code Read_NVS_Failed)
                  (snd checked
                   ++ [GetItemSize key; GetString key len;
                       LogError "Error {} reading from NVS!"]))
        else
          Some (mk_Outcome
                  (overwrite value (snd (get_string hd key len))) ec
                  (snd checked ++ [GetItemSize key; GetString key len]))
    end.

(** template <typename T> void set(const char *key, T value, ec) *)
Definition set (self : NVSHandle) (key : string) (value : T)
           (ec : error_code) : option (Outcome unit) :=
  let checked := check_key_length key ec in
  let ec := fst checked in
  if is_set ec then Some (mk_Outcome tt ec (snd checked))
  else
    match handle self with
    | None => None
    | Some hd =>
      let err := set_item hd key value in
      if negb (err =? ESP_OK) then
        Some (mk_Outcome
                tt (make_error_code Write_NVS_Failed)
                (snd checked
                 ++ [SetItem key value; LogError "Error {} writing to NVS!"]))
      else Some (mk_Outcome tt ec (snd checked ++ [SetItem key value]))
    end.

(** void set(const char *key, const std::string &value, ec) *)
Definition set_str (self : NVSHandle) (key : string) (value : list byte)
           (ec : error_code) : option (Outcome unit) :=
  let checked := check_key_length key ec in
  let ec := fst checked in
  if is_set ec then Some (mk_Outcome tt ec (snd checked))
  else
    match handle self with
    | None => None
    | Some hd =>
      let err := set_string hd key value in
      if negb (err =? ESP_OK) then
        Some (mk_Outcome
                tt (make_error_code Write_NVS_Failed)
                (snd checked
                 ++ [SetString key value; LogError "Error {} writing to NVS!"]))
      else Some (mk_Outcome tt ec (snd checked ++ [SetString key value]))
    end.

(** void commit(std::error_code &ec) *)
Definition commit (self : NVSHandle) (ec : error_code)
  : option (Outcome unit) :=
  match handle self with
  | None => None
  | Some hd =>
    let err := commit_ hd in
    if negb (err =? ESP_OK) then
      Some (mk_Outcome tt (make_error_code Commit_NVS_Failed)
                       [Commit; LogError "Error {} committing to NVS!"])
    else Some (mk_Outcome tt ec [Commit])
  end.

(** A call on the vendor's handle, as opposed to one on the logger. *)
Definition on_handle (c : Call) : bool :=
  match c with
  | LogError _ => false
  | _ => true
  end.

End Handle.

Arguments mk_Outcome {T V}.
Arguments out_value {T V}.
Arguments out_ec {T V}.
Arguments out_calls {T V}.

(** static_cast<uint8_t> of a bool and static_cast<bool> of a uint8_t *)
Definition uint8_of_bool (b : bool) : Z := if b then 1 else 0.
Definition bool_of_uint8 (x : Z) : bool := negb (x =? 0).

(** void get(const char *key, bool &value, ec) *)
Definition get_bool (code : NvsErrc -> Z) (self : @NVSHandle Z)
           (key : string) (value : bool) (ec : error_code)
  : option (Outcome bool) :=
  let u8 := uint8_of_bool value in
  match get code self key u8 ec with
  | None => None
  | Some got =>
    if negb (is_set (out_ec got))
    then Some (mk_Outcome (bool_of_uint8 (out_value got))
                          (out_ec got) (out_calls got))
    else Some (mk_Outcome value (out_ec got) (out_calls got))
  end.

(** void set(const char *key, bool value, ec) *)
Definition set_bool (code : NvsErrc -> Z) (self : @NVSHandle Z)
           (key : string) (value : bool) (ec : error_code)
  : option (Outcome unit) :=
  let u8 := uint8_of_bool value in
  set code self key u8 ec.

End Nvs.

(** ** Concrete inputs for the display driver and the storage handle *)

Module MoreScenario.

(** A descriptor that has been closed. *)
Definition closed : @UdpSocket (list (list byte)) :=
  mk_UdpSocket (-1) None None (mk_Logger "UdpSocket" WARN).

Definition listening : @UdpSocket (list (list byte)) :=
  mk_UdpSocket 3 None (Some Scenario.echo) (mk_Logger "UdpSocket" WARN).

(** A 320 x 240 panel without offsets, data/command pin 5. *)
Definition panel : Ili9341.Statics := Ili9341.mk_Statics 4 5 6 0 0.

Definition whole_screen : Ili9341.lv_area_t := Ili9341.mk_lv_area_t 0 0 319 239.




(** Values for the enumerators of NvsErrc, none of them zero. *)
Definition errc_value (e : Nvs.NvsErrc) : Z :=
  match e with
  | Nvs.Namespace_Length_Too_Long => 10
  | Nvs.Key_Length_Too_Long => 11
  | Nvs.Open_NVS_Handle_Failed => 12
  | Nvs.Write_NVS_Failed => 13
  | Nvs.Commit_NVS_Failed => 14
  | Nvs.Read_NVS_Failed => 15
  | Nvs.Key_Not_Found => 16
  end.

(** A handle on a flash that holds the byte 1 and a five-byte string under
    every key, and whose get_string fails. *)
Definition flash : @Nvs.Handle Z :=
  Nvs.mk_Handle (fun _ => (Nvs.ESP_OK, 1))
                (fun _ _ => Nvs.ESP_OK)
                (fun _ => (Nvs.ESP_OK, 5%N))
                (fun _ _ => (0x1102, []))
                (fun _ _ => Nvs.ESP_OK)
                Nvs.ESP_OK.

Definition storage : @Nvs.NVSHandle Z := Nvs.mk_NVSHandle (Some flash).

Definition no_error : Nvs.error_code := Nvs.mk_error_code 0 Nvs.other_category.

Definition stale_error : Nvs.error_code :=
  Nvs.mk_error_code 16 Nvs.theNvsErrCategory.

Definition long_key : string := "a_key_of_20_letters_".

End MoreScenario.

(** * Properties *)

Section Properties.

Context {U duration : Type}.
Variable os : @OS duration.

Implicit Types (self : @UdpSocket U) (h : list (@Event duration)) (u : U).

(** ** Proof tools *)

Lemma is_valid_closed : Socket.is_valid (-1) = false.
Proof. reflexivity. Qed.

Lemma overwrite_exact (buffer payload : list byte) :
  (List.length payload <= List.length buffer)%nat ->
  firstn (List.length payload) (overwrite buffer payload) = payload.
Proof.
  intros Hle. unfold overwrite.
  rewrite (@firstn_all2 _ (List.length buffer) payload Hle).
  rewrite firstn_app, firstn_all, Nat.sub_diag. simpl.
  apply app_nil_r.
Qed.

Lemma buffer_length (n : N) :
  N.of_nat (List.length (repeat x00 (N.to_nat n))) = n.
Proof. rewrite repeat_length. apply N2Nat.id. Qed.

(** ** Byte order *)

Lemma below_256 (b : Z) :
  0 <= b < 256 -> In b (map Z.of_nat (seq 0 256)).
Proof.
  intros Hb. apply in_map_iff. exists (Z.to_nat b).
  split; [lia|]. apply in_seq. lia.
Qed.

Lemma htons_twice_below (y : Z) :
  0 <= y < 65536 -> htons (htons y) = y.
Proof.
  intros Hy.
  assert (Hall :
            forallb (fun hi =>
                       forallb (fun lo =>
                                  htons (htons (256 * hi + lo)) =? 256 * hi + lo)
                               (map Z.of_nat (seq 0 256)))
                    (map Z.of_nat (seq 0 256)) = true)
    by (vm_compute; reflexivity).
  pose proof (Z.div_mod y 256 ltac:(lia)) as Hsplit.
  assert (Hhi : 0 <= y / 256 < 256)
    by (split; [apply Z.div_pos; lia | apply Z.div_lt_upper_bound; lia]).
  assert (Hlo : 0 <= y mod 256 < 256) by (apply Z.mod_pos_bound; lia).
  revert Hsplit Hhi Hlo.
  generalize (y / 256) as hi. generalize (y mod 256) as lo.
  intros lo hi -> Hhi Hlo.
  rewrite forallb_forall in Hall.
  specialize (Hall hi (below_256 hi Hhi)).
  rewrite forallb_forall in Hall.
  apply Z.eqb_eq, Hall, below_256, Hlo.
Qed.

(** What bind and sendto are given as the port reads back, in host order,
    as the low 16 bits of the configured port. *)
Lemma ntohs_htons (x : Z) : ntohs (htons x) = x mod 65536.
Proof.
  unfold ntohs.
  assert (Hx : 0 <= x mod 65536 < 65536) by (apply Z.mod_pos_bound; lia).
  assert (Hsame : htons x = htons (x mod 65536)).
  { unfold htons, to_uint16. rewrite Z.mod_mod by lia. reflexivity. }
  rewrite Hsame. apply htons_twice_below. exact Hx.
Qed.

(** Unfolds the monad so that a run computes. *)
Ltac run :=
  unfold log, sys_socket, enable_reuse, make_multicast, add_multicast_group,
    set_receive_timeout, sendto, sys_bind, shutdown, close, recvfrom,
    wait_for, Task_start in *;
  unfold bind, ret, emit, ask, call_user in *;
  cbn -[htons htonl ntohs Z.ltb Z.leb N.eqb Z.to_nat Z.of_N N.to_nat
        firstn skipn repeat overwrite Socket.is_valid] in *.

(** Case analysis on the next test the code makes. *)
Ltac branch :=
  match goal with
  | |- context [if ?c then _ else _] =>
    let E := fresh "E" in destruct c eqn:E
  | |- context [match ?c with Some _ => _ | None => _ end] =>
    let E := fresh "E" in destruct c eqn:E
  end.

(** ** receive *)

(** C2: on a valid socket receive makes exactly one call of the OS receive
    primitive, for at most max_bytes bytes; when the primitive returns a
    count n >= 0, receive succeeds, out_data is the first n bytes of the
    buffer the datagram was written to (the whole datagram when n is its
    length and fits) and out_remote is refreshed from the sender's address;
    when it returns a negative result, receive fails and out_data and
    out_remote are as they were. *)
Theorem receive_result (max_num_bytes : N) (data : list byte)
        (remote_info : Socket.Info) self h u :
  Socket.is_valid (socket_ self) = true ->
  let out := receive os max_num_bytes data remote_info self h u in
  exists ans,
    actions (emitted out) = [EvRecvfrom (socket_ self) max_num_bytes ans]
    /\ user out = u
    /\ (0 <= ra_ret ans ->
        value out =
          (true,
           firstn (Z.to_nat (ra_ret ans))
                  (overwrite (repeat x00 (N.to_nat max_num_bytes)) (ra_payload ans)),
           Socket.mk_Info (inet_ntoa os (sin_addr (ra_from ans)))
                          (Z.to_N (ntohs (sin_port (ra_from ans))))
                          (ra_from ans))
        /\ (ra_ret ans = Z.of_nat (List.length (ra_payload ans)) ->
            ra_ret ans <= Z.of_N max_num_bytes ->
            snd (fst (value out)) = ra_payload ans))
    /\ (ra_ret ans < 0 -> value out = (false, data, remote_info)).
Proof.
  intros Hvalid out. subst out. unfold receive. rewrite Hvalid. run.
  rewrite buffer_length.
  match goal with
  | |- context [os_recvfrom os ?h' ?fd ?n] => set (a := os_recvfrom os h' fd n)
  end.
  exists a.
  destruct (ra_ret a <? 0) eqn:E; run; rewrite E; run.
  - apply Z.ltb_lt in E.
    split; [reflexivity|]. split; [reflexivity|]. split; [intros; lia|].
    intros _. destruct remote_info; reflexivity.
  - apply Z.ltb_ge in E.
    split; [reflexivity|]. split; [reflexivity|]. split; [|intros; lia].
    intros _. split; [reflexivity|].
    intros Hlen Hfit. cbn [fst snd]. rewrite Hlen, Nat2Z.id.
    apply overwrite_exact. rewrite repeat_length. lia.
Qed.


(** Case analysis on every test the code makes, in the order it makes
    them. *)
Ltac branches := repeat (branch; run).

(** Turns the boolean tests met on the way into arithmetic facts. *)
Ltac arith :=
  repeat match goal with
  | E : (_ <? _) = true |- _ => apply Z.ltb_lt in E
  | E : (_ <? _) = false |- _ => apply Z.ltb_ge in E
  | E : (_ <=? _) = true |- _ => apply Z.leb_le in E
  | E : (_ <=? _) = false |- _ => apply Z.leb_gt in E
  | E : (_ =? _)%N = true |- _ => apply N.eqb_eq in E
  | E : (_ =? _)%N = false |- _ => apply N.eqb_neq in E
  | E : negb _ = true |- _ => apply negb_true_iff in E; rewrite ?E in *
  | E : negb _ = false |- _ => apply negb_false_iff in E; rewrite ?E in *
  end.

(** Looks for an event in an explicit list of events. *)
Ltac find_event H :=
  cbn in H;
  repeat match type of H with
  | _ \/ _ => destruct H as [H | H]
  end;
  try discriminate H; try contradiction H;
  try (injection H as; subst).

Lemma ends_with_last {A} (x : A) : exists before, [x] = before ++ [x].
Proof. exists []. reflexivity. Qed.

Lemma ends_with_cons {A} (e x : A) (l : list A) :
  (exists before, l = before ++ [x]) ->
  exists before, e :: l = before ++ [x].
Proof. intros [b ->]. exists (e :: b). reflexivity. Qed.

Ltac ends_with := repeat first [apply ends_with_last | apply ends_with_cons].

(** ** send *)

(** C4: on a valid socket, when the transmission succeeds and
    wait_for_response is set while response_size is zero, send returns
    success, makes no receive attempt and invokes no callback; the
    misconfiguration is logged as a warning. *)
Theorem send_zero_response_size (data : list byte)
        (send_config : @SendConfig U duration) self h u :
  Socket.is_valid (socket_ self) = true ->
  wait_for_response send_config = true ->
  response_size send_config = 0%N ->
  let out := send os data send_config self h u in
  transmitted (emitted out) ->
  value out = true
  /\ filter is_recvfrom (emitted out) = []
  /\ filter is_callback (emitted out) = []
  /\ user out = u
  /\ In (EvLog WARN "Response requested, but response_size=0, not waiting for response!")
        (emitted out).
Proof.
  intros Hvalid Hwait Hsize out. subst out.
  unfold send. rewrite Hvalid, Hwait, Hsize. run.
  branches; arith; intros (fd & d & a & n & Hin & Hn); find_event Hin;
    try lia.
  all: repeat split; repeat (first [left; reflexivity | right]).
Qed.

(** C1: on a valid socket, with wait_for_response set and response_size > 0,
    once the transmission has succeeded send makes exactly one receive of
    at most response_size bytes; when that receive fails send returns
    failure (and no callback runs); when it succeeds send returns success,
    and a registered response callback has been invoked, as the last thing
    send did, with exactly the received bytes. *)
Theorem send_waits_for_response (data : list byte)
        (send_config : @SendConfig U duration) self h u :
  Socket.is_valid (socket_ self) = true ->
  wait_for_response send_config = true ->
  (0 < response_size send_config)%N ->
  let out := send os data send_config self h u in
  transmitted (emitted out) ->
  exists ans,
    filter is_recvfrom (emitted out)
    = [EvRecvfrom (socket_ self) (response_size send_config) ans]
    /\ (ra_ret ans < 0 ->
        value out = false
        /\ filter is_callback (emitted out) = []
        /\ user out = u)
    /\ (0 <= ra_ret ans ->
        let bytes :=
          firstn (Z.to_nat (ra_ret ans))
                 (overwrite (repeat x00 (N.to_nat (response_size send_config)))
                            (ra_payload ans)) in
        value out = true
        /\ match on_response_callback send_config with
           | Some cb =>
             filter is_callback (emitted out) = [EvResponseCallback bytes]
             /\ (exists before, emitted out = before ++ [EvResponseCallback bytes])
             /\ user out = cb bytes u
           | None =>
             filter is_callback (emitted out) = [] /\ user out = u
           end).
Proof.
  intros Hvalid Hwait Hsize out. subst out.
  assert (Hnz : (response_size send_config =? 0)%N = false)
    by (apply N.eqb_neq; lia).
  unfold send, receive. rewrite Hvalid, Hwait, Hnz. run.
  rewrite !buffer_length.
  branches; arith; intros (fd & d & a & n & Hin & Hn); find_event Hin;
    try lia.
  all: eexists; split; [reflexivity|]; split; intros Hret; try lia.
  all: repeat split; ends_with.
Qed.

(** C3: on a valid socket the steps of send come in this order, and a
    failing step returns failure before any later step runs: the multicast
    configuration of the descriptor when is_multicast_endpoint is set, then
    the receive timeout set to response_timeout whatever wait_for_response
    says, then one sendto of the payload as it was given (empty or not), a
    negative result of which returns failure; after a transmission that
    succeeded nothing follows but the receive and the response callback. *)
Theorem send_steps (data : list byte)
        (send_config : @SendConfig U duration) self h u :
  Socket.is_valid (socket_ self) = true ->
  let out := send os data send_config self h u in
  let fd := socket_ self in
  let timeout := response_timeout send_config in
  let dest := mk_sockaddr_in AF_INET (htons (Z.of_N (sc_port send_config)))
                             (inet_addr os (ip_address send_config)) in
  let configured :=
    if sc_is_multicast_endpoint send_config
    then [EvMakeMulticast fd true] else [] in
  (sc_is_multicast_endpoint send_config = true
   /\ actions (emitted out) = [EvMakeMulticast fd false]
   /\ value out = false)
  \/ (actions (emitted out)
      = configured ++ [EvSetReceiveTimeout fd timeout false]
      /\ value out = false)
  \/ (exists n, n < 0
      /\ actions (emitted out)
         = configured ++ [EvSetReceiveTimeout fd timeout true;
                          EvSendto fd data dest n]
      /\ value out = false)
  \/ (exists n rest, 0 <= n
      /\ actions (emitted out)
         = configured ++ [EvSetReceiveTimeout fd timeout true;
                          EvSendto fd data dest n] ++ rest
      /\ forallb is_response_step rest = true).
Proof.
  intros Hvalid out fd timeout dest configured.
  subst out fd timeout dest configured.
  unfold send, receive. rewrite Hvalid. run.
  branches; arith; try discriminate; try lia.
  all: first
    [ left; split; [reflexivity | split; reflexivity]
    | right; left; split; reflexivity
    | right; right; left; eexists; split;
      [ | split; reflexivity]; assumption
    | right; right; right; eexists; eexists; split;
      [ | split; reflexivity]; assumption ].
Qed.

(** ** start_receiving *)

(** C7: a start_receiving call on a valid socket with no active worker
    first binds the socket to the wildcard address and the configured port,
    and a failed bind returns failure with nothing after it; for a multicast
    endpoint it then enables multicast and after that joins the group, and
    either failure returns failure with the descriptor kept as it is, bound
    and open; otherwise it installs the server loop with the configured
    buffer size as the worker's callback, starts the worker and returns
    success, the start of the worker being the last thing it does: it
    attempts no receive. *)
Theorem start_receiving_steps (task_config : Task.Config)
        (receive_config : @ReceiveConfig U) self h u :
  worker_active self = false ->
  Socket.is_valid (socket_ self) = true ->
  let out := start_receiving os task_config receive_config self h u in
  let fd := socket_ self in
  let any_address :=
    mk_sockaddr_in AF_INET (htons (Z.of_N (rc_port receive_config))) 0 in
  let group := multicast_group receive_config in
  let registered :=
    set_server_receive_callback_ self (on_receive_callback receive_config) in
  let installed :=
    Task.set_callback task_config
      (Task.bound_server_task_function (buffer_size receive_config)) in
  let joined :=
    if rc_is_multicast_endpoint receive_config
    then [EvMakeMulticast fd true; EvAddMulticastGroup fd group true]
    else [] in
  (exists err, err < 0
     /\ actions (emitted out) = [EvBind fd any_address err]
     /\ value out = (false, task_config, registered))
  \/ (exists err, 0 <= err
     /\ rc_is_multicast_endpoint receive_config = true
     /\ actions (emitted out)
        = [EvBind fd any_address err; EvMakeMulticast fd false]
     /\ value out = (false, task_config, registered))
  \/ (exists err, 0 <= err
     /\ rc_is_multicast_endpoint receive_config = true
     /\ actions (emitted out)
        = [EvBind fd any_address err; EvMakeMulticast fd true;
           EvAddMulticastGroup fd group false]
     /\ value out = (false, task_config, registered))
  \/ (exists err, 0 <= err
     /\ actions (emitted out)
        = [EvBind fd any_address err] ++ joined
          ++ [EvTaskStart (Some (Task.bound_server_task_function
                                   (buffer_size receive_config)))]
     /\ value out
        = (true, installed,
           set_task_ registered (Some (Task.mk_Task installed true)))).
Proof.
  intros Hidle Hvalid out fd any_address group registered installed joined.
  subst out fd any_address group registered installed joined.
  unfold worker_active in Hidle.
  unfold start_receiving. rewrite Hidle, Hvalid. run.
  branches; arith; try discriminate.
  all: first
    [ left; eexists; split; [ | split; reflexivity]; assumption
    | right; left; eexists; split;
      [ | split; [reflexivity | split; reflexivity]]; assumption
    | right; right; left; eexists; split;
      [ | split; [reflexivity | split; reflexivity]]; assumption
    | right; right; right; eexists; split;
      [ | split; reflexivity]; assumption ].
Qed.

(** C10: when a start_receiving call passes its two checks and then fails,
    at bind or at the multicast configuration, the object is left with the
    new configuration's receive callback registered, and with nothing else
    changed. *)
Theorem failed_start_receiving_registers_callback
        (task_config : Task.Config) (receive_config : @ReceiveConfig U)
        self h u :
  worker_active self = false ->
  Socket.is_valid (socket_ self) = true ->
  let out := start_receiving os task_config receive_config self h u in
  fst (fst (value out)) = false ->
  server_receive_callback_ (snd (value out))
  = on_receive_callback receive_config
  /\ snd (value out)
     = set_server_receive_callback_ self (on_receive_callback receive_config)
  /\ exists before failed,
       actions (emitted out) = before ++ [failed]
       /\ match failed with
          | EvBind _ _ err => err < 0
          | EvMakeMulticast _ ok | EvAddMulticastGroup _ _ ok => ok = false
          | _ => False
          end.
Proof.
  intros Hidle Hvalid out. subst out.
  unfold worker_active in Hidle.
  unfold start_receiving. rewrite Hidle, Hvalid. run.
  branches; arith; intros Hfailed; try discriminate.
  all: split; [reflexivity | split; [reflexivity|]].
  - eexists [], _. split; [reflexivity | assumption].
  - eexists [_], _. split; [reflexivity | reflexivity].
  - eexists [_; _], _. split; [reflexivity | reflexivity].
Qed.

(** C5: once a start_receiving call has succeeded, every later
    start_receiving call on the object, whatever its arguments and whatever
    happened in between, returns failure, leaves the object and the task
    configuration it was given as they are, and does nothing but log an
    error: no bind, no multicast step, no second worker. *)
Theorem second_start_receiving_rejected
        (task_config task_config' : Task.Config)
        (receive_config receive_config' : @ReceiveConfig U)
        self h u h' u' :
  let first := start_receiving os task_config receive_config self h u in
  fst (fst (value first)) = true ->
  let receiving := snd (value first) in
  let second := start_receiving os task_config' receive_config' receiving h' u' in
  worker_active receiving = true
  /\ value second = (false, task_config', receiving)
  /\ emitted second = [EvLog ERROR "Server is alrady receiving"]
  /\ user second = u'.
Proof.
  intros first Hstarted receiving second.
  assert (Hactive : worker_active receiving = true).
  { subst receiving first. revert Hstarted.
    unfold start_receiving, worker_active. run.
    branches; intros Hstarted; try discriminate.
    all: try reflexivity.
    all: rewrite <- E; destruct self; reflexivity || assumption. }
  split; [exact Hactive|].
  subst second. revert Hactive. generalize receiving. intros s Hactive.
  unfold worker_active in Hactive.
  unfold start_receiving. rewrite Hactive. run.
  repeat split.
Qed.

(** ** Construction and teardown *)

(** Uses what is known of the descriptor's validity. *)
Ltac validity :=
  match goal with
  | H : Socket.is_valid ?fd = _ |- context [Socket.is_valid ?fd] =>
    rewrite !H
  end.

(** C8, as the code has it: the destructor always runs cleanup; on a valid
    descriptor cleanup calls shutdown with how = 0, the receive direction,
    then closes the descriptor and marks it invalid; on an invalid one it
    does nothing; and a cleanup after a cleanup does nothing. *)
Theorem cleanup_closes_once self h u :
  let out := UdpSocket_dtor self h u in
  let fd := socket_ self in
  out = cleanup self h u
  /\ (Socket.is_valid fd = true ->
      actions (emitted out) = [EvShutdown fd SHUT_RD; EvClose fd]
      /\ value out = set_socket_ self (-1))
  /\ (Socket.is_valid fd = false ->
      emitted out = [] /\ value out = self)
  /\ user out = u
  /\ forall h' u',
       let again := cleanup (value out) h' u' in
       emitted again = [] /\ value again = value out /\ user again = u'.
Proof.
  intros out fd. subst out fd.
  unfold UdpSocket_dtor, cleanup.
  destruct (Socket.is_valid (socket_ self)) eqn:Hvalid; run.
  - split; [reflexivity|]. split; [intros _; split; reflexivity|].
    split; [intros; discriminate|]. split; [reflexivity|].
    intros h' u'. repeat split.
  - split; [reflexivity|]. split; [intros; discriminate|].
    split; [intros _; split; reflexivity|]. split; [reflexivity|].
    intros h' u'. rewrite Hvalid. repeat split.
Qed.

(** C9, as the code has it: when descriptor allocation fails the
    constructed object is unusable, every send, receive and start_receiving
    on it returning failure without a system call, and its destructor does
    nothing; when only enabling address reuse fails the object keeps its
    valid, open descriptor, which its destructor shuts down and closes. *)
Theorem failed_construction (uninitialised : Z) (config : Config) h u :
  let built := UdpSocket_ctor os uninitialised config h u in
  let self := value built in
  (allocation_failed (emitted built) ->
   Socket.is_valid (socket_ self) = false
   /\ (forall data (send_config : @SendConfig U duration) h' u',
         let out := send os data send_config self h' u' in
         value out = false /\ actions (emitted out) = [] /\ user out = u')
   /\ (forall max_num_bytes data remote_info h' u',
         let out := receive os max_num_bytes data remote_info self h' u' in
         value out = (false, data, remote_info)
         /\ actions (emitted out) = [] /\ user out = u')
   /\ (forall task_config (receive_config : @ReceiveConfig U) h' u',
         let out := start_receiving os task_config receive_config self h' u' in
         value out = (false, task_config, self)
         /\ actions (emitted out) = [] /\ user out = u')
   /\ (forall h' u',
         let out := UdpSocket_dtor self h' u' in
         value out = self /\ emitted out = [] /\ user out = u'))
  /\ (reuse_failed (emitted built) ->
      Socket.is_valid (socket_ self) = true
      /\ forall h' u',
           let out := UdpSocket_dtor self h' u' in
           actions (emitted out)
           = [EvShutdown (socket_ self) SHUT_RD; EvClose (socket_ self)]).
Proof.
  intros built self. subst self built.
  unfold UdpSocket_ctor, init. run.
  split.
  - branches; intros (d & t & p & fd & Hin & Hfd); find_event Hin;
      arith; try congruence.
    split; [first [assumption | reflexivity]|].
    unfold send, receive, start_receiving, UdpSocket_dtor, cleanup. run.
    validity. run. repeat split.
  - branches; intros (fd & Hin); find_event Hin; arith; try discriminate.
    split; [reflexivity|].
    intros h' u'. unfold UdpSocket_dtor, cleanup. run.
    validity. run. reflexivity.
Qed.

(** ** The server loop *)

Lemma iteration_receives_once (n : N) self h u :
  Socket.is_valid (socket_ self) = true ->
  List.length
    (filter is_recvfrom (emitted (server_task_function os n self h u)))
  = 1%nat.
Proof.
  intros Hvalid. unfold server_task_function, receive.
  rewrite Hvalid. run. branches; reflexivity.
Qed.

Lemma Task_run_attempts (rounds : nat) :
  forall (n : N) (name : string) self h u,
    task_ self
    = Some (Task.mk_Task
              (Task.mk_Config name (Some (Task.bound_server_task_function n)))
              true) ->
    Socket.is_valid (socket_ self) = true ->
    List.length (filter is_recvfrom (emitted (Task_run os rounds self h u)))
    = rounds.
Proof.
  induction rounds as [|rounds IH]; intros n name self h u Htask Hvalid.
  - reflexivity.
  - cbn [Task_run]. rewrite Htask. unfold bind.
    pose proof (iteration_receives_once n self h u Hvalid) as Hone.
    destruct (server_task_function os n self h u) as [[] e1 u1].
    pose proof (IH n name self (h ++ e1) u1 Htask Hvalid) as Hrest.
    destruct (Task_run os rounds self (h ++ e1) u1) as [[] e2 u2].
    cbn [emitted] in *.
    rewrite filter_app, length_app, Hone, Hrest. reflexivity.
Qed.

(** C6: in an iteration of the server loop a failed receive is followed by
    a wait of one millisecond and nothing else, and the iteration returns;
    when the registered callback returns bytes, the iteration sends them to
    the sender's address with one sendto, and a negative result of that is
    logged as an error; and whatever the outcomes, the loop goes on: over
    any number of rounds a worker that runs the installed loop on a valid
    socket makes one receive attempt per round. *)
Theorem server_loop_iteration (buffer_size : N) self h u :
  let attempt := receive os buffer_size [] Socket.Info_default self h u in
  let out := server_task_function os buffer_size self h u in
  let data := snd (fst (value attempt)) in
  let sender := snd (value attempt) in
  (fst (fst (value attempt)) = false ->
   emitted out = emitted attempt ++ [EvWaitFor 1]
   /\ user out = user attempt)
  /\ (forall cb response,
        fst (fst (value attempt)) = true ->
        server_receive_callback_ self = Some cb ->
        fst (cb data sender (user attempt)) = Some response ->
        exists sent,
          actions (emitted out)
          = actions (emitted attempt)
            ++ [EvReceiveCallback data sender (Some response);
                EvSendto (socket_ self) response (Socket.raw sender) sent]
          /\ (sent < 0 ->
              In (EvLog ERROR "Error occurred responding: {} - '{}'")
                 (emitted out))
          /\ user out = snd (cb data sender (user attempt)))
  /\ (forall rounds name,
        task_ self
        = Some (Task.mk_Task
                  (Task.mk_Config
                     name (Some (Task.bound_server_task_function buffer_size)))
                  true) ->
        Socket.is_valid (socket_ self) = true ->
        List.length
          (filter is_recvfrom (emitted (Task_run os rounds self h u)))
        = rounds).
Proof.
  intros attempt out data sender. subst out data sender attempt.
  split; [|split].
  - unfold server_task_function, bind. cbv beta.
    generalize (receive os buffer_size [] Socket.Info_default self h u).
    intros [[[ok d] i] e u1]. cbn [value emitted user fst snd]. intros ->. run.
    split; reflexivity.
  - intros cb response.
    unfold server_task_function, bind. cbv beta.
    generalize (receive os buffer_size [] Socket.Info_default self h u).
    intros [[[ok d] i] e u1]. cbn [value emitted user fst snd]. intros -> -> Hresponse. run.
    rewrite Hresponse. run.
    eexists.
    branch; run; unfold actions; rewrite filter_app; cbn.
    + split; [reflexivity|]. split; [|reflexivity].
      intros _. apply in_or_app. right. cbn. tauto.
    + split; [reflexivity|]. split; [|reflexivity].
      arith. intros. lia.
  - intros rounds name. apply Task_run_attempts.
Qed.

End Properties.

(** * The theorems at work in the concrete world *)

Import Scenario.

Example ping_pong :
  let out := send good_os PING ping_config opened nothing_yet blank in
  value out = true /\ user out = [PONG].
Proof. vm_compute. split; reflexivity. Qed.

Example ping_unanswered :
  value (send silent_os PING ping_config opened nothing_yet blank) = false.
Proof. reflexivity. Qed.

Example echo_round :
  actions (emitted (server_task_function good_os 64
                      (set_server_receive_callback_ opened (Some echo))
                      nothing_yet blank))
  = [EvRecvfrom 3 64 pong;
     EvReceiveCallback PONG (Socket.mk_Info "127.0.0.1" 5000 peer) (Some PONG);
     EvSendto 3 PONG peer 4].
Proof. reflexivity. Qed.

Example join_refused :
  let out := start_receiving no_group_os worker_config multicast_server_config
                             opened nothing_yet blank in
  fst (fst (value out)) = false
  /\ socket_ (snd (value out)) = 3
  /\ task_ (snd (value out)) = None
  /\ actions (emitted out)
     = [EvBind 3 (mk_sockaddr_in AF_INET (htons 5000) 0) 0;
        EvMakeMulticast 3 true;
        EvAddMulticastGroup 3 "239.1.1.1" false].
Proof. repeat split. Qed.

Example idle_server :
  List.length
    (filter is_recvfrom
            (emitted (Task_run silent_os 5
                               (snd (value (start_receiving
                                              silent_os worker_config
                                              server_config opened
                                              nothing_yet blank)))
                               nothing_yet blank)))
  = 5%nat.
Proof. reflexivity. Qed.

Example server_recovers :
  let receiving :=
    snd (value (start_receiving flaky_os worker_config server_config opened
                                nothing_yet blank)) in
  let out := Task_run flaky_os 2 receiving nothing_yet blank in
  actions (emitted out)
  = [EvRecvfrom 3 64 timed_out;
     EvWaitFor 1;
     EvRecvfrom 3 64 pong;
     EvReceiveCallback PONG (Socket.mk_Info "127.0.0.1" 5000 peer) (Some PONG);
     EvSendto 3 PONG peer 4]
  /\ user out = [PONG].
Proof. split; reflexivity. Qed.

Lemma receive_result_witness :
  Socket.is_valid (socket_ opened) = true
  /\ exists ans,
       actions (emitted (receive good_os 4 [] Socket.Info_default opened
                                 nothing_yet blank))
       = [EvRecvfrom 3 4 ans]
       /\ user (receive good_os 4 [] Socket.Info_default opened
                        nothing_yet blank) = blank
       /\ (0 <= ra_ret ans ->
           value (receive good_os 4 [] Socket.Info_default opened
                          nothing_yet blank)
           = (true,
              firstn (Z.to_nat (ra_ret ans))
                     (overwrite (repeat x00 4) (ra_payload ans)),
              Socket.mk_Info (inet_ntoa good_os (sin_addr (ra_from ans)))
                             (Z.to_N (ntohs (sin_port (ra_from ans))))
                             (ra_from ans))
           /\ (ra_ret ans = Z.of_nat (List.length (ra_payload ans)) ->
               ra_ret ans <= 4 ->
               snd (fst (value (receive good_os 4 [] Socket.Info_default opened
                                        nothing_yet blank)))
               = ra_payload ans))
       /\ (ra_ret ans < 0 ->
           value (receive good_os 4 [] Socket.Info_default opened
                          nothing_yet blank)
           = (false, [], Socket.Info_default)).
Proof.
  split; [reflexivity|].
  apply (receive_result good_os 4 [] Socket.Info_default opened nothing_yet blank).
  reflexivity.
Defined.

Lemma send_waits_for_response_witness :
  let out := send good_os PING ping_config opened nothing_yet blank in
  (Socket.is_valid (socket_ opened) = true
   /\ wait_for_response ping_config = true
   /\ (0 < response_size ping_config)%N
   /\ transmitted (emitted out))
  /\ exists ans,
       filter is_recvfrom (emitted out) = [EvRecvfrom 3 4 ans]
       /\ (ra_ret ans < 0 ->
           value out = false
           /\ filter is_callback (emitted out) = []
           /\ user out = blank)
       /\ (0 <= ra_ret ans ->
           let bytes :=
             firstn (Z.to_nat (ra_ret ans))
                    (overwrite (repeat x00 4) (ra_payload ans)) in
           value out = true
           /\ filter is_callback (emitted out) = [EvResponseCallback bytes]
           /\ (exists before, emitted out = before ++ [EvResponseCallback bytes])
           /\ user out = remember bytes blank).
Proof.
  assert (Hsent : transmitted
                    (emitted (send good_os PING ping_config opened
                                   nothing_yet blank))).
  { exists 3, PING, peer, 4. split; [|lia].
    vm_compute. right. right. left. reflexivity. }
  split.
  - split; [reflexivity | split; [reflexivity | split; [reflexivity | exact Hsent]]].
  - apply (send_waits_for_response good_os PING ping_config opened
                                   nothing_yet blank);
      [reflexivity | reflexivity | reflexivity | exact Hsent].
Defined.

Lemma send_steps_witness :
  Socket.is_valid (socket_ opened) = true
  /\ exists n rest,
       0 <= n
       /\ actions (emitted (send good_os [] fire_and_forget opened
                                 nothing_yet blank))
          = [EvSetReceiveTimeout 3 500 true; EvSendto 3 [] peer n] ++ rest
       /\ forallb is_response_step rest = true.
Proof.
  split; [reflexivity|].
  destruct (send_steps good_os [] fire_and_forget opened nothing_yet blank
                       eq_refl)
    as [(Hmc & _) | [(_ & Hv) | [(n & _ & _ & Hv) | H]]].
  - discriminate Hmc.
  - discriminate Hv.
  - discriminate Hv.
  - exact H.
Defined.

Lemma send_zero_response_size_witness :
  let out := send good_os PING zero_size_config opened nothing_yet blank in
  (Socket.is_valid (socket_ opened) = true
   /\ wait_for_response zero_size_config = true
   /\ response_size zero_size_config = 0%N
   /\ transmitted (emitted out))
  /\ value out = true
  /\ filter is_recvfrom (emitted out) = []
  /\ filter is_callback (emitted out) = []
  /\ user out = blank
  /\ In (EvLog WARN "Response requested, but response_size=0, not waiting for response!")
        (emitted out).
Proof.
  assert (Hsent : transmitted
                    (emitted (send good_os PING zero_size_config opened
                                   nothing_yet blank))).
  { exists 3, PING, peer, 4. split; [|lia].
    vm_compute. right. right. left. reflexivity. }
  split.
  - split; [reflexivity | split; [reflexivity | split; [reflexivity | exact Hsent]]].
  - apply (send_zero_response_size good_os PING zero_size_config opened
                                   nothing_yet blank);
      [reflexivity | reflexivity | reflexivity | exact Hsent].
Defined.

Lemma start_receiving_steps_witness :
  let out := start_receiving good_os worker_config multicast_server_config
                             opened nothing_yet blank in
  (worker_active opened = false /\ Socket.is_valid (socket_ opened) = true)
  /\ exists err,
       0 <= err
       /\ actions (emitted out)
          = [EvBind 3 (mk_sockaddr_in AF_INET (htons 5000) 0) err;
             EvMakeMulticast 3 true;
             EvAddMulticastGroup 3 "239.1.1.1" true;
             EvTaskStart (Some (Task.bound_server_task_function 64))]
       /\ fst (fst (value out)) = true.
Proof.
  split; [split; reflexivity|].
  destruct (start_receiving_steps good_os worker_config multicast_server_config
                                  opened nothing_yet blank eq_refl eq_refl)
    as [(err & _ & _ & Hv) | [(err & _ & _ & _ & Hv)
        | [(err & _ & _ & _ & Hv) | (err & Herr & Hacts & Hv)]]].
  - discriminate Hv.
  - discriminate Hv.
  - discriminate Hv.
  - exists err. split; [exact Herr|]. split; [exact Hacts|].
    reflexivity.
Defined.

Lemma failed_start_receiving_registers_callback_witness :
  let out := start_receiving no_bind_os worker_config server_config
                             opened nothing_yet blank in
  (worker_active opened = false
   /\ Socket.is_valid (socket_ opened) = true
   /\ fst (fst (value out)) = false)
  /\ server_receive_callback_ opened = None
  /\ server_receive_callback_ (snd (value out)) = Some echo.
Proof.
  split; [split; [reflexivity | split; reflexivity]|]. split; [reflexivity|].
  apply (failed_start_receiving_registers_callback
           no_bind_os worker_config server_config opened nothing_yet blank);
    reflexivity.
Defined.

Lemma second_start_receiving_rejected_witness :
  let first := start_receiving good_os worker_config server_config
                               opened nothing_yet blank in
  let receiving := snd (value first) in
  let second := start_receiving good_os worker_config multicast_server_config
                                receiving (emitted first) blank in
  fst (fst (value first)) = true
  /\ worker_active receiving = true
  /\ value second = (false, worker_config, receiving)
  /\ emitted second = [EvLog ERROR "Server is alrady receiving"]
  /\ user second = blank.
Proof.
  split; [reflexivity|].
  apply (second_start_receiving_rejected
           good_os worker_config worker_config server_config
           multicast_server_config opened nothing_yet blank).
  reflexivity.
Defined.

Lemma server_loop_iteration_witness :
  let listening := set_server_receive_callback_ opened (Some echo) in
  let failed := receive silent_os 64 [] Socket.Info_default listening
                        nothing_yet blank in
  fst (fst (value failed)) = false
  /\ emitted (server_task_function silent_os 64 listening nothing_yet blank)
     = emitted failed ++ [EvWaitFor 1]
  /\ user (server_task_function silent_os 64 listening nothing_yet blank)
     = user failed.
Proof.
  split; [reflexivity|].
  apply (server_loop_iteration
           silent_os 64 (set_server_receive_callback_ opened (Some echo))
           nothing_yet blank).
  reflexivity.
Defined.

Lemma cleanup_closes_once_witness :
  let out := @UdpSocket_dtor _ Z opened nothing_yet blank in
  Socket.is_valid (socket_ opened) = true
  /\ actions (emitted out) = [EvShutdown 3 SHUT_RD; EvClose 3]
  /\ value out = set_socket_ opened (-1).
Proof.
  split; [reflexivity|].
  apply (cleanup_closes_once opened nothing_yet blank).
  reflexivity.
Defined.

Lemma failed_construction_witness :
  let built := UdpSocket_ctor no_socket_os 0 (mk_Config WARN)
                              nothing_yet blank in
  allocation_failed (emitted built)
  /\ forall data send_config h' u',
       let out := send no_socket_os data send_config (value built) h' u' in
       value out = false /\ actions (emitted out) = [] /\ user out = u'.
Proof.
  assert (Hfailed : allocation_failed
                      (emitted (UdpSocket_ctor no_socket_os 0 (mk_Config WARN)
                                               nothing_yet blank))).
  { exists AF_INET, SOCK_DGRAM, IPPROTO_IP, (-1). split; [|reflexivity].
    vm_compute. left. reflexivity. }
  split; [exact Hfailed|].
  apply (failed_construction no_socket_os 0 (mk_Config WARN) nothing_yet blank).
  exact Hfailed.
Defined.

(** C8, as the claim states it, fails: the one shutdown call of cleanup
    names the receive direction, not both. *)
Lemma cleanup_shuts_down_receive_direction_only :
  let out := @cleanup _ Z opened nothing_yet blank in
  Socket.is_valid (socket_ opened) = true
  /\ filter (fun e => match e with EvShutdown _ _ => true | _ => false end)
            (emitted out)
     = [EvShutdown 3 SHUT_RD]
  /\ SHUT_RD <> SHUT_RDWR
  /\ ~ In (EvShutdown 3 SHUT_RDWR) (emitted out).
Proof.
  split; [reflexivity|]. split; [reflexivity|]. split; [discriminate|].
  cbn. intros [H | [H | [H | []]]]; discriminate H.
Defined.

(** C9, as the claim states it, fails: when enabling address reuse fails,
    init reports failure, yet the constructed object sends. *)
Lemma reuse_failure_leaves_socket_usable :
  let blank_object := mk_UdpSocket 0 None None (mk_Logger "UdpSocket" WARN) in
  let built := UdpSocket_ctor no_reuse_os 0 (mk_Config WARN) nothing_yet blank in
  let out := send no_reuse_os PING fire_and_forget (value built)
                  (emitted built) blank in
  fst (value (init no_reuse_os blank_object nothing_yet blank)) = false
  /\ reuse_failed (emitted built)
  /\ value out = true
  /\ actions (emitted out)
     = [EvSetReceiveTimeout 3 500 true; EvSendto 3 PING peer 4].
Proof.
  split; [reflexivity|]. split; [|split; reflexivity].
  exists 3. vm_compute. right. left. reflexivity.
Defined.

(** * More of udp_socket.hpp: what the member functions do beyond the claims *)

Section MoreProperties.

Context {U duration : Type}.
Variable os : @OS duration.

Implicit Types (self : @UdpSocket U) (h : list (@Event duration)) (u : U).

(** Unfolds the monad in the goal. *)
Ltac compute_run :=
  unfold log, sys_socket, enable_reuse, make_multicast, add_multicast_group,
    set_receive_timeout, sendto, sys_bind, shutdown, close, recvfrom,
    wait_for, Task_start;
  unfold bind, ret, emit, ask, call_user;
  cbn -[htons htonl ntohs Z.ltb Z.leb N.eqb Z.to_nat Z.of_N N.to_nat
        firstn skipn repeat overwrite Socket.is_valid Nat.min].

(** Case analysis on the tests the code makes, innermost first. *)
Ltac cases :=
  repeat (match goal with
          | |- context [if ?c then _ else _] =>
            lazymatch c with
            | context [if _ then _ else _] => fail
            | context [match _ with _ => _ end] => fail
            | _ => let E := fresh "E" in destruct c eqn:E
            end
          | |- context [match ?c with Some _ => _ | None => _ end] =>
            lazymatch c with
            | context [if _ then _ else _] => fail
            | context [match _ with _ => _ end] => fail
            | _ => let E := fresh "E" in destruct c eqn:E
            end
          end;
          cbn -[htons htonl ntohs Z.ltb Z.leb N.eqb Z.to_nat Z.of_N N.to_nat
                firstn skipn repeat overwrite Socket.is_valid Nat.min]).

(** Turns the boolean tests met on the way into facts. *)
Ltac facts :=
  repeat match goal with
  | E : (_ <? _) = true |- _ => apply Z.ltb_lt in E
  | E : (_ <? _) = false |- _ => apply Z.ltb_ge in E
  | E : (_ =? _)%N = true |- _ => apply N.eqb_eq in E
  | E : (_ =? _)%N = false |- _ => apply N.eqb_neq in E
  | E : negb _ = true |- _ => apply negb_true_iff in E
  | E : negb _ = false |- _ => apply negb_false_iff in E
  end.

(** Looks for an event in an explicit list of events. *)
Ltac search H :=
  cbn in H;
  repeat match type of H with
  | _ \/ _ => destruct H as [H | H]
  end;
  try discriminate H; try contradiction H;
  try (injection H as; subst).


Ltac ends := repeat first [apply ends_with_last | apply ends_with_cons].

(** ** receive *)



(** ** send *)

(** X2: send calls sendto at most once; a send that returns true was made on
    a valid descriptor and called sendto exactly once, with the payload as
    given, to the configured destination, with a non-negative result. *)
Theorem send_transmits_once (data : list byte)
        (send_config : @SendConfig U duration) self h u :
  let out := send os data send_config self h u in
  let dest := mk_sockaddr_in AF_INET (htons (Z.of_N (sc_port send_config)))
                             (inet_addr os (ip_address send_config)) in
  (List.length (filter is_sendto (emitted out)) <= 1)%nat
  /\ (value out = true ->
      Socket.is_valid (socket_ self) = true
      /\ exists n,
           0 <= n
           /\ filter is_sendto (emitted out)
              = [EvSendto (socket_ self) data dest n]).
Proof.
  intros out dest. subst out dest. unfold send, receive. compute_run.
  cases; facts; try discriminate.
  all: split; [cbn; lia|]; intros Hok; try discriminate Hok.
  all: split; [assumption|]; eexists; split; [|reflexivity]; assumption.
Qed.

(** X3: without wait_for_response, send returns true exactly when its sendto
    succeeded; it makes no receive, runs no callback and leaves the user's
    state as it is. *)
Theorem send_without_waiting (data : list byte)
        (send_config : @SendConfig U duration) self h u :
  wait_for_response send_config = false ->
  let out := send os data send_config self h u in
  (value out = true <-> transmitted (emitted out))
  /\ filter is_recvfrom (emitted out) = []
  /\ filter is_callback (emitted out) = []
  /\ user out = u.
Proof.
  intros Hwait out. subst out. unfold send. rewrite Hwait. compute_run.
  cases; facts.
  all: split; [|split; [reflexivity | split; reflexivity]].
  all: split;
    [ intros Hok; try discriminate Hok
    | intros (fd & d & a & n & Hin & Hn); search Hin; try lia; try reflexivity ].
  all: do 4 eexists; split; [|eassumption]; cbn; tauto.
Qed.


(** ** The guards on the descriptor *)

Lemma invalid_socket_refuses self :
  Socket.is_valid (socket_ self) = false ->
  (forall data (send_config : @SendConfig U duration) h u,
      let out := send os data send_config self h u in
      value out = false /\ actions (emitted out) = [] /\ user out = u)
  /\ (forall max_num_bytes data remote_info h u,
         let out := receive os max_num_bytes data remote_info self h u in
         value out = (false, data, remote_info)
         /\ actions (emitted out) = [] /\ user out = u)
  /\ (forall task_config (receive_config : @ReceiveConfig U) h u,
         let out := start_receiving os task_config receive_config self h u in
         value out = (false, task_config, self)
         /\ actions (emitted out) = [] /\ user out = u).
Proof.
  intros Hinvalid. unfold send, receive, start_receiving.
  rewrite Hinvalid. compute_run.
  split; [|split]; intros; cases; repeat split.
Qed.

(** X5: after cleanup the descriptor is invalid, and send, receive and
    start_receiving on the object fail without a system call, leaving their
    reference arguments and the object as they are. *)
Theorem closed_socket_refuses self h u :
  let closed := value (@cleanup U duration self h u) in
  Socket.is_valid (socket_ closed) = false
  /\ (forall data (send_config : @SendConfig U duration) h' u',
         let out := send os data send_config closed h' u' in
         value out = false /\ actions (emitted out) = [] /\ user out = u')
  /\ (forall max_num_bytes data remote_info h' u',
         let out := receive os max_num_bytes data remote_info closed h' u' in
         value out = (false, data, remote_info)
         /\ actions (emitted out) = [] /\ user out = u')
  /\ (forall task_config (receive_config : @ReceiveConfig U) h' u',
         let out := start_receiving os task_config receive_config closed h' u' in
         value out = (false, task_config, closed)
         /\ actions (emitted out) = [] /\ user out = u').
Proof.
  intros closed.
  assert (Hclosed : Socket.is_valid (socket_ closed) = false).
  { subst closed. unfold cleanup.
    destruct (Socket.is_valid (socket_ self)) eqn:Hvalid; compute_run.
    - reflexivity.
    - exact Hvalid. }
  split; [exact Hclosed|].
  exact (invalid_socket_refuses closed Hclosed).
Qed.

(** ** start_receiving *)

(** X6: a start_receiving call turned down by one of its two checks, an
    active worker or an invalid descriptor, leaves the object, its registered
    callback included, and the task configuration as they are and makes no
    system call. *)
Theorem rejected_start_receiving_changes_nothing
        (task_config : Task.Config) (receive_config : @ReceiveConfig U)
        self h u :
  worker_active self = true \/ Socket.is_valid (socket_ self) = false ->
  let out := start_receiving os task_config receive_config self h u in
  value out = (false, task_config, self)
  /\ actions (emitted out) = []
  /\ user out = u.
Proof.
  intros Hrejected out. subst out. unfold start_receiving.
  fold (worker_active self).
  destruct (worker_active self) eqn:Hactive; compute_run.
  - repeat split.
  - destruct Hrejected as [Habsurd | Hinvalid]; [discriminate Habsurd|].
    rewrite Hinvalid. compute_run. repeat split.
Qed.

(** X7: start_receiving never changes the descriptor or the logger and never
    creates, shuts down or closes a descriptor; a call that fails leaves the
    worker and the caller's task configuration alone and starts no worker; a
    call that succeeds was made with no active worker on a valid descriptor,
    has bound it, has registered the new callback, and has started the
    worker as the last thing it did. *)
Theorem start_receiving_effects
        (task_config : Task.Config) (receive_config : @ReceiveConfig U)
        self h u :
  let out := start_receiving os task_config receive_config self h u in
  let after := snd (value out) in
  socket_ after = socket_ self
  /\ logger_ after = logger_ self
  /\ filter is_lifecycle (emitted out) = []
  /\ (fst (fst (value out)) = false ->
      task_ after = task_ self
      /\ snd (fst (value out)) = task_config
      /\ filter is_task_start (emitted out) = [])
  /\ (fst (fst (value out)) = true ->
      worker_active self = false
      /\ Socket.is_valid (socket_ self) = true
      /\ worker_active after = true
      /\ server_receive_callback_ after = on_receive_callback receive_config
      /\ (exists before,
            emitted out
            = before ++ [EvTaskStart
                           (Some (Task.bound_server_task_function
                                    (buffer_size receive_config)))])
      /\ exists addr err,
           In (EvBind (socket_ self) addr err) (emitted out) /\ 0 <= err).
Proof.
  intros out after. subst after out. unfold start_receiving.
  fold (worker_active self).
  destruct (worker_active self) eqn:Hactive; compute_run.
  { repeat split; intros; discriminate. }
  cases; facts.
  all: split; [reflexivity|]; split; [reflexivity|]; split; [reflexivity|].
  all: split; intros Hresult; try discriminate Hresult.
  all: try (split; [reflexivity | split; reflexivity]).
  all: split; [reflexivity|]; split; [assumption|].
  all: split; [reflexivity|]; split; [reflexivity|].
  all: split; [ends | do 2 eexists; split; [left; reflexivity | assumption]].
Qed.

(** X8: on a valid descriptor with no active worker, the first thing
    start_receiving does is a bind to the wildcard IPv4 address whose port,
    read back in host order, is the configured port modulo 65536: the
    configured port itself only when it is below 65536. *)
Theorem start_receiving_binds_low_port_bits
        (task_config : Task.Config) (receive_config : @ReceiveConfig U)
        self h u :
  worker_active self = false ->
  Socket.is_valid (socket_ self) = true ->
  let out := start_receiving os task_config receive_config self h u in
  exists addr err,
    hd_error (actions (emitted out)) = Some (EvBind (socket_ self) addr err)
    /\ sin_family addr = AF_INET
    /\ sin_addr addr = 0
    /\ ntohs (sin_port addr) = Z.of_N (rc_port receive_config) mod 65536
    /\ ((rc_port receive_config < 65536)%N ->
        ntohs (sin_port addr) = Z.of_N (rc_port receive_config)).
Proof.
  intros Hidle Hvalid out. subst out. unfold start_receiving.
  fold (worker_active self). rewrite Hidle, Hvalid. compute_run.
  do 2 eexists. split; [cases; reflexivity|].
  cbn [sin_family sin_addr sin_port].
  split; [reflexivity|]. split; [reflexivity|].
  split; [apply ntohs_htons|].
  intros Hport. rewrite ntohs_htons. apply Z.mod_small. lia.
Qed.

(** ** Construction and teardown *)

(** X9: over a construction followed by the destruction, the calls that
    create, shut down or close a descriptor are socket(), then, when it
    returned a valid descriptor, whether or not address reuse could be
    enabled, one shutdown and one close of that descriptor, and nothing but
    socket() otherwise; a new object has no worker and no callback, and
    neither step touches the user's state. *)
Theorem descriptor_is_released_once (uninitialised : Z) (config : Config) h u :
  let built := UdpSocket_ctor os uninitialised config h u in
  let fd := socket_ (value built) in
  let destroyed :=
    UdpSocket_dtor (value built) (h ++ emitted built) (user built) in
  filter is_lifecycle (emitted built ++ emitted destroyed)
  = EvSocket AF_INET SOCK_DGRAM IPPROTO_IP fd
    :: (if Socket.is_valid fd then [EvShutdown fd SHUT_RD; EvClose fd] else [])
  /\ task_ (value built) = None
  /\ server_receive_callback_ (value built) = None
  /\ user destroyed = u.
Proof.
  intros built fd destroyed. subst destroyed fd built.
  unfold UdpSocket_ctor, UdpSocket_dtor, init, cleanup. compute_run.
  cases; facts; try congruence.
  all: match goal with
       | H : Socket.is_valid _ = _ |- _ => rewrite ?H
       end; compute_run; repeat split.
Qed.

(** X10: init returns false exactly when socket() returned an invalid
    descriptor or enabling address reuse failed; when it returns true the
    descriptor is valid; the worker and the registered callback are not
    touched. *)
Theorem init_reports_failure self h u :
  let out := init os self h u in
  (fst (value out) = false
   <-> allocation_failed (emitted out) \/ reuse_failed (emitted out))
  /\ (fst (value out) = true ->
      Socket.is_valid (socket_ (snd (value out))) = true)
  /\ task_ (snd (value out)) = task_ self
  /\ server_receive_callback_ (snd (value out)) = server_receive_callback_ self.
Proof.
  intros out. subst out. unfold init. compute_run.
  cases; facts.
  - split; [|split; [discriminate | split; reflexivity]].
    split; [intros _ | reflexivity].
    left. do 4 eexists. split; [left; reflexivity | assumption].
  - split; [|split; [discriminate | split; reflexivity]].
    split; [intros _ | reflexivity].
    right. eexists. rewrite <- E0. right. left. reflexivity.
  - split; [|split; [intros _; assumption | split; reflexivity]].
    split; [discriminate|].
    intros [(d & t & p & fd & Hin & Hfd) | (fd & Hin)]; search Hin; congruence.
Qed.

(** ** The server loop *)

(** X11: an iteration of the server loop makes at most one receive, runs
    the callback at most once and only when it made a receive, sends at most
    one datagram and only when it ran the callback, and never creates, shuts
    down or closes a descriptor; with no callback registered it runs none, sends
    nothing and leaves the user's state as it is. *)
Theorem server_iteration_is_bounded (n : N) self h u :
  let out := server_task_function os n self h u in
  (List.length (filter is_recvfrom (emitted out)) <= 1)%nat
  /\ (List.length (filter is_callback (emitted out))
      <= List.length (filter is_recvfrom (emitted out)))%nat
  /\ (List.length (filter is_sendto (emitted out))
      <= List.length (filter is_callback (emitted out)))%nat
  /\ filter is_lifecycle (emitted out) = []
  /\ (server_receive_callback_ self = None ->
      filter is_callback (emitted out) = []
      /\ filter is_sendto (emitted out) = []
      /\ user out = u).
Proof.
  intros out. subst out. unfold server_task_function, receive. compute_run.
  cases; facts; try discriminate.
  all: do 4 (split; [first [reflexivity | cbn; lia]|]).
  all: intros Hnone; try discriminate Hnone; repeat split.
Qed.

(** X12: on a valid descriptor with a callback registered, an iteration of
    the server loop starts with one recvfrom for buffer_size bytes; when it
    fails the only other action is the wait of one millisecond; when it
    succeeds the callback is given the received bytes and the sender read
    from the address recvfrom filled, and bytes the callback returns are
    sent with one sendto to that same address, nothing being sent when it
    returns none. *)
Theorem server_iteration_answers_the_sender (n : N) self h u
        (cb : @receive_callback_fn U) :
  Socket.is_valid (socket_ self) = true ->
  server_receive_callback_ self = Some cb ->
  let out := server_task_function os n self h u in
  let fd := socket_ self in
  exists ans,
    hd_error (actions (emitted out)) = Some (EvRecvfrom fd n ans)
    /\ (ra_ret ans < 0 ->
        actions (emitted out) = [EvRecvfrom fd n ans; EvWaitFor 1]
        /\ user out = u)
    /\ (0 <= ra_ret ans ->
        let data :=
          firstn (Z.to_nat (ra_ret ans))
                 (overwrite (repeat x00 (N.to_nat n)) (ra_payload ans)) in
        let sender :=
          Socket.mk_Info (inet_ntoa os (sin_addr (ra_from ans)))
                         (Z.to_N (ntohs (sin_port (ra_from ans))))
                         (ra_from ans) in
        user out = snd (cb data sender u)
        /\ match fst (cb data sender u) with
           | None =>
             actions (emitted out)
             = [EvRecvfrom fd n ans; EvReceiveCallback data sender None]
           | Some response =>
             exists sent,
               actions (emitted out)
               = [EvRecvfrom fd n ans;
                  EvReceiveCallback data sender (Some response);
                  EvSendto fd response (ra_from ans) sent]
           end).
Proof.
  intros Hvalid Hcb out fd. subst out fd.
  unfold server_task_function, receive. rewrite Hvalid, Hcb.
  unfold Socket.update, Socket.set_raw, Socket.ipv4_ptr, Socket.Info_default.
  compute_run. rewrite !buffer_length.
  match goal with
  | |- context [os_recvfrom os ?h' ?fd' ?n'] =>
    exists (os_recvfrom os h' fd' n')
  end.
  cases; facts; try discriminate.
  all: split; [reflexivity|]; split; intros Hret; try lia.
  all: split; try reflexivity; eexists; reflexivity.
Qed.

End MoreProperties.

(** * The display driver *)

Section Ili9341Facts.

Import Ili9341.

Lemma byte_split (v : Z) :
  0 <= v < 65536 ->
  0 <= Z.land (Z.shiftr v 8) 0xFF < 256
  /\ 0 <= Z.land v 0xFF < 256
  /\ address_of (Z.land (Z.shiftr v 8) 0xFF) (Z.land v 0xFF) = v.
Proof.
  intros Hv. unfold address_of.
  change 0xFF with (Z.ones 8).
  rewrite !Z.land_ones, Z.shiftr_div_pow2 by lia.
  change (2 ^ 8) with 256.
  assert (Hhigh : 0 <= v / 256 < 256)
    by (split; [apply Z.div_pos; lia | apply Z.div_lt_upper_bound; lia]).
  rewrite (Z.mod_small (v / 256)) by exact Hhigh.
  pose proof (Z.mod_pos_bound v 256 ltac:(lia)) as Hlow.
  pose proof (Z.div_mod v 256 ltac:(lia)) as Hsplit.
  lia.
Qed.

Lemma to_uint32_range (x : Z) : 0 <= to_uint32 x < 4294967296.
Proof. unfold to_uint32. apply Z.mod_pos_bound. lia. Qed.

Lemma uint16_of_uint32 (x : Z) : to_uint16 (to_uint32 x) = to_uint16 x.
Proof. unfold to_uint16, to_uint32. Z.div_mod_to_equations. lia. Qed.

Lemma uint16_of_sum (a b : Z) :
  to_uint16 (to_uint32 (to_uint32 a + b)) = to_uint16 (a + b).
Proof. unfold to_uint16, to_uint32. Z.div_mod_to_equations. lia. Qed.

(** ** send_commands *)



(** ** fill *)

(** X15: for an area with x1 <= x2 and y1 <= y2 whose width and height fit
    lv_coord_t and that stays within 0..65535 after the offsets are added, fill sends the column and the row window as
    two 16-bit addresses each, high byte first, that read back as the area
    moved by the offsets, and the number of bytes it announces for the
    colour data is two for every pixel of that window. *)
Theorem fill_window_matches_data (s : Statics) (area : lv_area_t)
        (color_map : list Z) (flags : Signal) :
  0 <= x1 area + offset_x_ s ->
  x1 area <= x2 area ->
  x2 area + offset_x_ s < 65536 ->
  0 <= y1 area + offset_y_ s ->
  y1 area <= y2 area ->
  y2 area + offset_y_ s < 65536 ->
  x2 area - x1 area < 32767 ->
  y2 area - y1 area < 32767 ->
  exists xa xb xc xd ya yb yc yd len,
    fill s area color_map flags
    = [GpioSetLevel (dc_pin_ s) COMMAND; LcdWrite [caset] 1 NONE;
       GpioSetLevel (dc_pin_ s) DATA; LcdWrite [xa; xb; xc; xd] 4 NONE;
       GpioSetLevel (dc_pin_ s) COMMAND; LcdWrite [raset] 1 NONE;
       GpioSetLevel (dc_pin_ s) DATA; LcdWrite [ya; yb; yc; yd] 4 NONE;
       GpioSetLevel (dc_pin_ s) COMMAND; LcdWrite [ramwr] 1 NONE;
       GpioSetLevel (dc_pin_ s) DATA; LcdWrite color_map len flags]
    /\ Forall (fun b => 0 <= b < 256) [xa; xb; xc; xd; ya; yb; yc; yd]
    /\ address_of xa xb = x1 area + offset_x_ s
    /\ address_of xc xd = x2 area + offset_x_ s
    /\ address_of ya yb = y1 area + offset_y_ s
    /\ address_of yc yd = y2 area + offset_y_ s
    /\ len = 2 * ((address_of xc xd - address_of xa xb + 1)
                  * (address_of yc yd - address_of ya yb + 1)).
Proof.
  intros Hx0 Hx Hx1 Hy0 Hy Hy1 Hw Hh.
  unfold fill, send_command, send_data, address_bytes. cbn [app].
  do 9 eexists. split; [reflexivity|].
  assert (Hsx : to_uint16 (x1 area + offset_x_ s) = x1 area + offset_x_ s)
    by (apply Z.mod_small; lia).
  assert (Hex : to_uint16 (x2 area + offset_x_ s) = x2 area + offset_x_ s)
    by (apply Z.mod_small; lia).
  assert (Hsy : to_uint16 (y1 area + offset_y_ s) = y1 area + offset_y_ s)
    by (apply Z.mod_small; lia).
  assert (Hey : to_uint16 (y2 area + offset_y_ s) = y2 area + offset_y_ s)
    by (apply Z.mod_small; lia).
  rewrite Hsx, Hex, Hsy, Hey.
  destruct (byte_split (x1 area + offset_x_ s) ltac:(lia)) as (Ha & Hb & Hab).
  destruct (byte_split (x2 area + offset_x_ s) ltac:(lia)) as (Hc & Hd & Hcd).
  destruct (byte_split (y1 area + offset_y_ s) ltac:(lia)) as (He & Hf & Hef).
  destruct (byte_split (y2 area + offset_y_ s) ltac:(lia)) as (Hg & Hi & Hgi).
  split; [repeat constructor; lia|].
  rewrite Hab, Hcd, Hef, Hgi.
  do 4 (split; [reflexivity|]).
  assert (Hwidth : lv_area_get_width area = x2 area - x1 area + 1).
  { unfold lv_area_get_width, to_int16, to_uint16.
    rewrite Z.mod_small by lia.
    destruct (x2 area - x1 area + 1 <? 32768) eqn:Hlt; [reflexivity|].
    apply Z.ltb_ge in Hlt. lia. }
  assert (Hheight : lv_area_get_height area = y2 area - y1 area + 1).
  { unfold lv_area_get_height, to_int16, to_uint16.
    rewrite Z.mod_small by lia.
    destruct (y2 area - y1 area + 1 <? 32768) eqn:Hlt; [reflexivity|].
    apply Z.ltb_ge in Hlt. lia. }
  rewrite Hwidth, Hheight.
  unfold to_uint32.
  assert (Hcells : 0 < (x2 area - x1 area + 1) * (y2 area - y1 area + 1)
                   <= 32767 * 32767) by nia.
  rewrite (Z.mod_small ((x2 area - x1 area + 1) * (y2 area - y1 area + 1)))
    by lia.
  rewrite Z.mod_small by lia.
  ring.
Qed.

(** ** clear *)

Lemma to_int32_small (x : Z) : 0 <= x < 2147483648 -> to_int32 x = x.
Proof.
  intros Hx. unfold to_int32, to_uint32.
  rewrite Z.mod_small by lia.
  destruct (x <? 2147483648) eqn:Hlt; [reflexivity|].
  apply Z.ltb_ge in Hlt. lia.
Qed.

Lemma rounds_next (m : Z) :
  0 < m -> rounds m = 1 + rounds (Z.max 0 (m - 2048)).
Proof.
  intros Hm. unfold rounds.
  destruct (Z.le_gt_cases m 2048) as [Hsmall | Hlarge].
  - rewrite Z.max_l by lia. Z.div_mod_to_equations. lia.
  - rewrite Z.max_r by lia. Z.div_mod_to_equations. lia.
Qed.

Lemma rounds_none (m : Z) : m <= 0 -> rounds (Z.max 0 m) = 0.
Proof. intros Hm. rewrite Z.max_l by lia. reflexivity. Qed.

(** The loop of clear from [i] on: with fuel for its rounds it ends, and it
    writes what is left of the [size] pixels, two bytes each, in pieces no
    longer than the colour array. *)
Lemma clear_loop_writes (s : Statics) (color_data : list Z) (size : Z)
      (fuel : nat) :
  forall i,
    0 <= i < size + 2048 ->
    size <= 2147481600 ->
    rounds (Z.max 0 (size - i)) < Z.of_nat fuel ->
    exists calls,
      clear_loop fuel s color_data size i = Some calls
      /\ sum (written calls) = 2 * Z.max 0 (size - i)
      /\ Z.of_nat (List.length (written calls)) = rounds (Z.max 0 (size - i))
      /\ Forall (fun len => 0 < len <= 4096) (written calls)
      /\ Forall (fun c => c = GpioSetLevel (dc_pin_ s) DATA
                          \/ exists len, c = LcdWrite color_data len NONE)
                calls.
Proof.
  induction fuel as [|fuel IH]; intros i Hi Hsize Hfuel.
  - pose proof (Z.div_pos (Z.max 0 (size - i) + 2047) 2048) as Hpos.
    unfold rounds in Hfuel. lia.
  - cbn [clear_loop].
    assert (Hu : to_uint32 i = i) by (apply Z.mod_small; lia).
    rewrite Hu.
    destruct (i <? size) eqn:Hlt.
    + apply Z.ltb_lt in Hlt.
      rewrite (Z.max_r 0 (size - i)) in * by lia.
      rewrite (rounds_next (size - i)) in * by lia.
      replace (size - i - 2048) with (size - (i + 2048)) in * by lia.
      unfold max_bytes_to_send in *. change (1024 * 2) with 2048 in *.
      destruct (IH (i + 2048) ltac:(lia) Hsize ltac:(lia))
        as (later & Hlater & Hsum & Hcount & Hlens & Hcalls).
      rewrite Hlater. eexists. split; [reflexivity|].
      rewrite to_int32_small by lia.
      assert (Hlen : to_uint32 (Z.min (size - i) 2048 * 2)
                     = 2 * Z.min (size - i) 2048)
        by (unfold to_uint32; rewrite Z.mod_small by lia; lia).
      unfold send_data. cbn [app written sum fold_right List.length].
      fold (sum (written later)).
      rewrite Hlen, Hsum.
      split; [lia|]. split; [lia|].
      split; [constructor; [lia | exact Hlens]|].
      constructor; [left; reflexivity|].
      constructor; [right; eexists; reflexivity | exact Hcalls].
    + apply Z.ltb_ge in Hlt.
      rewrite rounds_none by lia. rewrite Z.max_l by lia.
      eexists. split; [reflexivity|].
      cbn. repeat split; constructor.
Qed.

(** X16: for a pixel count width * height (modulo 2^32) of at most
    2^31 - 2048, with fuel for its rounds, clear ends; after the ten calls
    that set the window it hands the colour array, every byte of which is
    the low byte of the colour, to the write function once per round of 2048
    pixels, each time with a length between 1 and the 4096 bytes of the
    array, the lengths adding up to two bytes per pixel. *)
Theorem clear_fills_in_bounded_pieces (fuel : nat) (s : Statics)
        (x y width height color : Z) :
  let size := to_uint32 (width * height) in
  size <= 2147481600 ->
  rounds size < Z.of_nat fuel ->
  exists window filled,
    clear fuel s x y width height color = Some (window ++ filled)
    /\ List.length window = 10%nat
    /\ sum (written filled) = 2 * size
    /\ Z.of_nat (List.length (written filled)) = rounds size
    /\ Forall (fun len => 0 < len <= 4096) (written filled)
    /\ Forall (fun c =>
                 c = GpioSetLevel (dc_pin_ s) DATA
                 \/ exists len,
                      c = LcdWrite (repeat (to_uint8 color) 4096) len NONE)
              filled.
Proof.
  intros size Hsize Hfuel.
  pose proof (to_uint32_range (width * height)) as Hrange. fold size in Hrange.
  unfold clear. fold size.
  destruct (clear_loop_writes
              s (repeat (to_uint8 color) (Z.to_nat (max_bytes_to_send * 2)))
              size fuel 0 ltac:(lia) Hsize)
    as (filled & Hfilled & Hsum & Hcount & Hlens & Hcalls).
  { rewrite Z.sub_0_r, Z.max_r by lia. exact Hfuel. }
  rewrite Hfilled.
  rewrite Z.sub_0_r, Z.max_r in * by lia.
  eexists (_ :: _ :: _ :: _ :: _ :: _ :: _ :: _ :: _ :: _ :: nil), filled.
  split; [reflexivity|]. split; [reflexivity|].
  repeat (split; [assumption|]). exact Hcalls.
Qed.

(** X17: the window clear sets, as long as it stays within 0..65535, is the
    column range from x + offset_x to x + width + offset_x and the row range
    from y + offset_y to y + width + offset_y, high byte first: the row
    range is computed from the width, and the height has no part in it. *)
Theorem clear_window_ignores_height (fuel : nat) (s : Statics)
        (x y width height color : Z) (calls : list Call) :
  clear fuel s x y width height color = Some calls ->
  0 <= x + offset_x_ s ->
  0 <= y + offset_y_ s ->
  0 <= width ->
  x + width + offset_x_ s < 65536 ->
  y + width + offset_y_ s < 65536 ->
  exists xa xb xc xd ya yb yc yd,
    firstn 9 calls
    = [GpioSetLevel (dc_pin_ s) COMMAND; LcdWrite [caset] 1 NONE;
       GpioSetLevel (dc_pin_ s) DATA; LcdWrite [xa; xb; xc; xd] 4 NONE;
       GpioSetLevel (dc_pin_ s) COMMAND; LcdWrite [raset] 1 NONE;
       GpioSetLevel (dc_pin_ s) DATA; LcdWrite [ya; yb; yc; yd] 4 NONE;
       GpioSetLevel (dc_pin_ s) COMMAND]
    /\ address_of xa xb = x + offset_x_ s
    /\ address_of xc xd = x + width + offset_x_ s
    /\ address_of ya yb = y + offset_y_ s
    /\ address_of yc yd = y + width + offset_y_ s.
Proof.
  intros Hcalls Hx Hy Hw Hxw Hyw.
  unfold clear in Hcalls.
  destruct (clear_loop fuel s _ _ 0) as [filled|]; [|discriminate Hcalls].
  injection Hcalls as <-.
  unfold send_command, send_data, address_bytes. cbn [app firstn].
  do 8 eexists. split; [reflexivity|].
  rewrite !uint16_of_sum, !uint16_of_uint32.
  assert (Hsx : to_uint16 (x + offset_x_ s) = x + offset_x_ s)
    by (apply Z.mod_small; lia).
  assert (Hex : to_uint16 (x + width + offset_x_ s) = x + width + offset_x_ s)
    by (apply Z.mod_small; lia).
  assert (Hsy : to_uint16 (y + offset_y_ s) = y + offset_y_ s)
    by (apply Z.mod_small; lia).
  assert (Hey : to_uint16 (y + width + offset_y_ s) = y + width + offset_y_ s)
    by (apply Z.mod_small; lia).
  rewrite Hsx, Hex, Hsy, Hey.
  destruct (byte_split (x + offset_x_ s) ltac:(lia)) as (_ & _ & ->).
  destruct (byte_split (x + width + offset_x_ s) ltac:(lia)) as (_ & _ & ->).
  destruct (byte_split (y + offset_y_ s) ltac:(lia)) as (_ & _ & ->).
  destruct (byte_split (y + width + offset_y_ s) ltac:(lia)) as (_ & _ & ->).
  repeat split.
Qed.

End Ili9341Facts.

(** * The storage handle *)

Section NvsFacts.

Import Nvs.

Context {T : Type}.
Variable code : NvsErrc -> Z.

Implicit Types (self : @NVSHandle T) (key : string) (ec : error_code).

Lemma long_key_checked key ec :
  (15 < String.length key)%nat ->
  check_key_length (T := T) code key ec
  = (make_error_code code Key_Length_Too_Long,
     [LogError "Key too long, must be <= 15 characters: {}"]).
Proof.
  intros Hlong. unfold check_key_length.
  apply Nat.ltb_lt in Hlong. rewrite Hlong. reflexivity.
Qed.

Lemma short_key_checked key ec :
  (String.length key <= 15)%nat ->
  check_key_length (T := T) code key ec = (ec, []).
Proof.
  intros Hshort. unfold check_key_length.
  apply Nat.ltb_ge in Hshort. rewrite Hshort. reflexivity.
Qed.

Lemma made_code_is_set (e : NvsErrc) :
  code e <> 0 -> is_set (make_error_code code e) = true.
Proof.
  intros He. unfold is_set, make_error_code. cbn.
  apply negb_true_iff, Z.eqb_neq, He.
Qed.

(** X18: the code of Key_Length_Too_Long not being zero, with a key of more
    than 15 characters, get and set, for values and
    for strings, set the error code to Key_Length_Too_Long (whatever it was
    before), log, leave the value as it is and make no call on the handle,
    null or not. *)
Theorem long_key_is_refused self key ec (value : T) (text : list byte) :
  code Key_Length_Too_Long <> 0 ->
  (15 < String.length key)%nat ->
  let refused :=
    [LogError (T := T) "Key too long, must be <= 15 characters: {}"] in
  let too_long := make_error_code code Key_Length_Too_Long in
  get code self key value ec = Some (mk_Outcome value too_long refused)
  /\ get_str code self key text ec = Some (mk_Outcome text too_long refused)
  /\ set code self key value ec = Some (mk_Outcome tt too_long refused)
  /\ set_str code self key text ec = Some (mk_Outcome tt too_long refused).
Proof.
  intros Hcode Hlong refused too_long. subst refused too_long.
  unfold get, get_str, set, set_str.
  rewrite (long_key_checked key ec Hlong). cbn [fst snd].
  rewrite (made_code_is_set _ Hcode). repeat split.
Qed.

(** X19: with an error code that is already set on entry and a key of at
    most 15 characters, get and set, for values and for strings, do nothing
    at all: no call on the handle, no log, the value and the error code as
    they were. *)
Theorem set_error_code_blocks self key ec (value : T) (text : list byte) :
  is_set ec = true ->
  (String.length key <= 15)%nat ->
  get code self key value ec = Some (mk_Outcome value ec [])
  /\ get_str code self key text ec = Some (mk_Outcome text ec [])
  /\ set code self key value ec = Some (mk_Outcome tt ec [])
  /\ set_str code self key text ec = Some (mk_Outcome tt ec []).
Proof.
  intros Hset Hshort. unfold get, get_str, set, set_str.
  rewrite (short_key_checked key ec Hshort). cbn [fst snd].
  rewrite Hset. repeat split.
Qed.

(** Case analysis on the tests of a member function. *)
Ltac outcomes :=
  repeat match goal with
  | |- context [if ?c then _ else _] =>
    lazymatch c with
    | context [if _ then _ else _] => fail
    | _ => let E := fresh "E" in destruct c eqn:E
    end
  | |- context [match handle ?s with Some _ => _ | None => _ end] =>
    destruct (handle s)
  end.

(** X20: the codes of NvsErrc not being zero, no member function clears an
    error code: when the error code is
    set on entry it is set on return from get, set, their string versions
    and commit. *)
Theorem error_code_is_never_cleared self key ec (value : T)
        (text : list byte) :
  (forall e, code e <> 0) ->
  is_set ec = true ->
  (forall r, get code self key value ec = Some r -> is_set (out_ec r) = true)
  /\ (forall r, get_str code self key text ec = Some r ->
                is_set (out_ec r) = true)
  /\ (forall r, set code self key value ec = Some r ->
                is_set (out_ec r) = true)
  /\ (forall r, set_str code self key text ec = Some r ->
                is_set (out_ec r) = true)
  /\ (forall r, commit code self ec = Some r -> is_set (out_ec r) = true).
Proof.
  intros Hcode Hset.
  unfold get, get_str, set, set_str, commit, check_key_length.
  repeat split; intros r; outcomes; cbn [fst snd] in *;
    intros Hr; try discriminate Hr;
    injection Hr as <-; cbn [out_ec];
    first [exact Hset | apply made_code_is_set, Hcode | congruence].
Qed.

(** X21: the codes of NvsErrc not being zero, a get that returns with the
    error code set has left the value as
    it was; a get that returns with the error code clear had a clear error
    code on entry and a key of at most 15 characters, made exactly one call,
    get_item, on a non-null handle, which answered ESP_OK, and returns the
    value that call read. *)
Theorem get_succeeds_only_by_reading self key ec (value : T) (r : Outcome T) :
  (forall e, code e <> 0) ->
  get code self key value ec = Some r ->
  (is_set (out_ec r) = true -> out_value r = value)
  /\ (is_set (out_ec r) = false ->
      is_set ec = false
      /\ (String.length key <= 15)%nat
      /\ out_ec r = ec
      /\ out_calls r = [GetItem key]
      /\ exists hd,
           handle self = Some hd
           /\ get_item hd key = (ESP_OK, out_value r)).
Proof.
  intros Hcode. unfold get, check_key_length.
  destruct (15 <? String.length key)%nat eqn:Hkey; cbn [fst snd].
  - rewrite (made_code_is_set _ (Hcode _)).
    intros Hr. injection Hr as <-. cbn [out_value out_ec].
    rewrite (made_code_is_set _ (Hcode _)).
    split; [reflexivity | discriminate].
  - apply Nat.ltb_ge in Hkey.
    destruct (is_set ec) eqn:Hset.
    + intros Hr. injection Hr as <-. cbn [out_value out_ec].
      rewrite Hset. split; [reflexivity | discriminate].
    + destruct (handle self) as [hd|]; [|discriminate].
      destruct (get_item hd key) as [err readvalue] eqn:Hitem. cbn [fst snd].
      destruct (err =? ESP_OK) eqn:Hok.
      * apply Z.eqb_eq in Hok. subst err.
        intros Hr. injection Hr as <-. cbn [out_value out_ec out_calls app].
        rewrite Hset. split; [discriminate|]. intros _.
        repeat split; try assumption.
        exists hd. split; [reflexivity | exact Hitem].
      * destruct (err =? ESP_ERR_NVS_NOT_FOUND);
          intros Hr; injection Hr as <-; cbn [out_value out_ec];
          rewrite (made_code_is_set _ (Hcode _));
          (split; [reflexivity | discriminate]).
Qed.

(** X22: when get_item_size succeeds and get_string then fails, the string
    version of get reports Read_NVS_Failed but has already resized the
    caller's string to the stored length. *)
Theorem failed_get_string_resizes_value self key ec (text : list byte)
        (hd : Handle) (len : N) (err : Z) :
  is_set ec = false ->
  (String.length key <= 15)%nat ->
  handle self = Some hd ->
  get_item_size hd key = (ESP_OK, len) ->
  fst (get_string hd key len) = err ->
  err <> ESP_OK ->
  exists r,
    get_str code self key text ec = Some r
    /\ out_ec r = make_error_code code Read_NVS_Failed
    /\ out_value r = resize text len
    /\ List.length (out_value r) = N.to_nat len
    /\ filter on_handle (out_calls r) = [GetItemSize key; GetString key len].
Proof.
  intros Hclear Hshort Hhandle Hsize Herr Hfailed.
  unfold get_str. rewrite (short_key_checked key ec Hshort). cbn [fst snd].
  rewrite Hclear, Hhandle, Hsize. cbn [fst snd negb].
  change (ESP_OK =? ESP_OK) with true. cbn [negb].
  rewrite Herr. apply Z.eqb_neq in Hfailed. rewrite Hfailed. cbn [negb].
  eexists. split; [reflexivity|]. cbn [out_ec out_value out_calls app].
  split; [reflexivity|]. split; [reflexivity|]. split; [|reflexivity].
  unfold resize. rewrite length_app, length_firstn, repeat_length. lia.
Qed.

End NvsFacts.

(** ** bool values and the null handle *)

Section NvsBoolFacts.

Import Nvs.

Variable code : NvsErrc -> Z.

(** X23: a bool written with set and read back with get is the same bool:
    when get_item answers ESP_OK with the byte that set handed to set_item,
    get returns the value that was set and leaves the error code clear. *)
Theorem bool_survives_set_and_get (writer reader : @Handle Z) (key : string)
        (ec : error_code) (value scratch : bool) (stored : Z)
        (w : Outcome unit) :
  is_set ec = false ->
  (String.length key <= 15)%nat ->
  set_bool code (mk_NVSHandle (Some writer)) key value ec = Some w ->
  In (SetItem key stored) (out_calls w) ->
  get_item reader key = (ESP_OK, stored) ->
  get_bool code (mk_NVSHandle (Some reader)) key scratch ec
  = Some (mk_Outcome value ec [GetItem key]).
Proof.
  intros Hclear Hshort Hw Hstored Hread.
  assert (Hbyte : stored = uint8_of_bool value).
  { revert Hw Hstored. unfold set_bool, set.
    rewrite (short_key_checked code key ec Hshort). cbn [fst snd handle].
    rewrite Hclear.
    destruct (negb _); intros Hw; injection Hw as <-;
      cbn [out_calls app In]; intros Hin;
      repeat match type of Hin with
             | _ \/ _ => destruct Hin as [Hin | Hin]
             end;
      try contradiction Hin; congruence. }
  unfold get_bool, get.
  rewrite (short_key_checked code key ec Hshort). cbn [fst snd handle].
  rewrite Hclear, Hread. cbn [fst snd]. change (ESP_OK =? ESP_OK) with true.
  cbn [out_ec out_value out_calls app]. rewrite Hclear. cbn [negb].
  subst stored. destruct value; reflexivity.
Qed.

(** X24: a namespace of more than 15 characters makes the constructor
    report Namespace_Length_Too_Long without opening anything and leave the
    handle null; on such an object commit always goes through the null
    handle, get and set do so when the key is short and the error code is
    clear, and they return without touching the handle when the error code
    is set. *)
Theorem long_namespace_leaves_null_handle
        (open : string -> option (@Handle Z) * Z) (ns_name : string)
        (ec : error_code) :
  (15 < String.length ns_name)%nat ->
  let built := NVSHandle_ctor code open ns_name ec in
  let self := out_value built in
  handle self = None
  /\ out_ec built = make_error_code code Namespace_Length_Too_Long
  /\ filter on_handle (out_calls built) = []
  /\ (forall ec', commit code self ec' = None)
  /\ (forall key value ec',
         is_set ec' = false -> (String.length key <= 15)%nat ->
         get code self key value ec' = None
         /\ set code self key value ec' = None)
  /\ (forall key value ec',
         is_set ec' = true -> (String.length key <= 15)%nat ->
         get code self key value ec' = Some (mk_Outcome value ec' [])
         /\ set code self key value ec' = Some (mk_Outcome tt ec' [])).
Proof.
  intros Hlong built self. subst self built.
  unfold NVSHandle_ctor. apply Nat.ltb_lt in Hlong. rewrite Hlong.
  cbn [out_value out_ec out_calls handle filter on_handle].
  split; [reflexivity|]. split; [reflexivity|]. split; [reflexivity|].
  split; [reflexivity|].
  split; intros key value ec' Hec Hshort; unfold get, set;
    rewrite (short_key_checked code key ec' Hshort); cbn [fst snd handle];
    rewrite Hec; split; reflexivity.
Qed.

End NvsBoolFacts.

(** * The further theorems at work *)

Import MoreScenario.


Lemma send_transmits_once_witness :
  let out := send good_os PING fire_and_forget opened nothing_yet blank in
  value out = true
  /\ exists n, 0 <= n /\ filter is_sendto (emitted out) = [EvSendto 3 PING peer n].
Proof.
  split; [reflexivity|].
  apply (send_transmits_once good_os PING fire_and_forget opened
                             nothing_yet blank).
  reflexivity.
Defined.

Lemma send_without_waiting_witness :
  let out := send good_os PING fire_and_forget opened nothing_yet blank in
  wait_for_response fire_and_forget = false
  /\ (value out = true <-> transmitted (emitted out))
  /\ filter is_recvfrom (emitted out) = []
  /\ filter is_callback (emitted out) = []
  /\ user out = blank.
Proof.
  split; [reflexivity|].
  apply (send_without_waiting good_os PING fire_and_forget opened
                              nothing_yet blank).
  reflexivity.
Defined.


Lemma rejected_start_receiving_changes_nothing_witness :
  let out := start_receiving good_os worker_config server_config closed
                             nothing_yet blank in
  (worker_active closed = true \/ Socket.is_valid (socket_ closed) = false)
  /\ value out = (false, worker_config, closed)
  /\ actions (emitted out) = []
  /\ user out = blank.
Proof.
  split; [right; reflexivity|].
  apply (rejected_start_receiving_changes_nothing
           good_os worker_config server_config closed nothing_yet blank).
  right. reflexivity.
Defined.

Lemma start_receiving_effects_witness :
  let out := start_receiving good_os worker_config server_config opened
                             nothing_yet blank in
  fst (fst (value out)) = true
  /\ worker_active (snd (value out)) = true
  /\ server_receive_callback_ (snd (value out)) = Some echo.
Proof.
  split; [reflexivity|].
  destruct (start_receiving_effects good_os worker_config server_config opened
                                    nothing_yet blank)
    as (_ & _ & _ & _ & Hstarted).
  destruct (Hstarted eq_refl) as (_ & _ & Hactive & Hcallback & _).
  split; [exact Hactive | exact Hcallback].
Defined.

Lemma start_receiving_binds_low_port_bits_witness :
  let out := start_receiving good_os worker_config server_config opened
                             nothing_yet blank in
  (worker_active opened = false /\ Socket.is_valid (socket_ opened) = true)
  /\ exists addr err,
       hd_error (actions (emitted out)) = Some (EvBind 3 addr err)
       /\ sin_family addr = AF_INET
       /\ sin_addr addr = 0
       /\ ntohs (sin_port addr) = 5000 mod 65536
       /\ ((5000 < 65536)%N -> ntohs (sin_port addr) = 5000).
Proof.
  split; [split; reflexivity|].
  apply (start_receiving_binds_low_port_bits
           good_os worker_config server_config opened nothing_yet blank);
    reflexivity.
Defined.

Lemma init_reports_failure_witness :
  let out := init no_reuse_os opened nothing_yet blank in
  fst (value out) = false
  /\ (allocation_failed (emitted out) \/ reuse_failed (emitted out)).
Proof.
  split; [reflexivity|].
  apply (init_reports_failure no_reuse_os opened nothing_yet blank).
  reflexivity.
Defined.

Lemma server_iteration_is_bounded_witness :
  let out := server_task_function good_os 64 opened nothing_yet blank in
  server_receive_callback_ opened = None
  /\ filter is_callback (emitted out) = []
  /\ filter is_sendto (emitted out) = []
  /\ user out = blank.
Proof.
  split; [reflexivity|].
  apply (server_iteration_is_bounded good_os 64 opened nothing_yet blank).
  reflexivity.
Defined.

Lemma server_iteration_answers_the_sender_witness :
  let out := server_task_function good_os 64 listening nothing_yet blank in
  (Socket.is_valid (socket_ listening) = true
   /\ server_receive_callback_ listening = Some echo)
  /\ exists ans,
       hd_error (actions (emitted out)) = Some (EvRecvfrom 3 64 ans).
Proof.
  split; [split; reflexivity|].
  destruct (server_iteration_answers_the_sender
              good_os 64 listening nothing_yet blank echo eq_refl eq_refl)
    as (ans & Hfirst & _).
  exists ans. exact Hfirst.
Defined.



Lemma fill_window_matches_data_witness :
  exists xa xb xc xd ya yb yc yd len,
    Ili9341.fill panel whole_screen [] Ili9341.FLUSH
    = [Ili9341.GpioSetLevel 5 Ili9341.COMMAND;
       Ili9341.LcdWrite [Ili9341.caset] 1 Ili9341.NONE;
       Ili9341.GpioSetLevel 5 Ili9341.DATA;
       Ili9341.LcdWrite [xa; xb; xc; xd] 4 Ili9341.NONE;
       Ili9341.GpioSetLevel 5 Ili9341.COMMAND;
       Ili9341.LcdWrite [Ili9341.raset] 1 Ili9341.NONE;
       Ili9341.GpioSetLevel 5 Ili9341.DATA;
       Ili9341.LcdWrite [ya; yb; yc; yd] 4 Ili9341.NONE;
       Ili9341.GpioSetLevel 5 Ili9341.COMMAND;
       Ili9341.LcdWrite [Ili9341.ramwr] 1 Ili9341.NONE;
       Ili9341.GpioSetLevel 5 Ili9341.DATA;
       Ili9341.LcdWrite [] len Ili9341.FLUSH]
    /\ Forall (fun b => 0 <= b < 256) [xa; xb; xc; xd; ya; yb; yc; yd]
    /\ Ili9341.address_of xa xb = 0
    /\ Ili9341.address_of xc xd = 319
    /\ Ili9341.address_of ya yb = 0
    /\ Ili9341.address_of yc yd = 239
    /\ len = 2 * ((Ili9341.address_of xc xd - Ili9341.address_of xa xb + 1)
                  * (Ili9341.address_of yc yd - Ili9341.address_of ya yb + 1)).
Proof.
  apply (fill_window_matches_data panel whole_screen [] Ili9341.FLUSH);
    cbn; lia.
Defined.

Lemma clear_fills_in_bounded_pieces_witness :
  (to_uint32 (320 * 240) <= 2147481600
   /\ Ili9341.rounds (to_uint32 (320 * 240)) < Z.of_nat 40)
  /\ exists window filled,
       Ili9341.clear 40 panel 0 0 320 240 0 = Some (window ++ filled)
       /\ List.length window = 10%nat
       /\ Ili9341.sum (Ili9341.written filled) = 2 * 76800
       /\ Z.of_nat (List.length (Ili9341.written filled)) = 38.
Proof.
  split; [split; [discriminate | reflexivity]|].
  destruct (clear_fills_in_bounded_pieces 40 panel 0 0 320 240 0)
    as (window & filled & Hcalls & Hwindow & Hsum & Hcount & _).
  - discriminate.
  - reflexivity.
  - exists window, filled. repeat split; assumption.
Defined.

Lemma clear_window_ignores_height_witness :
  exists calls xa xb xc xd ya yb yc yd,
    Ili9341.clear 2 panel 10 20 2 3 0 = Some calls
    /\ firstn 9 calls
       = [Ili9341.GpioSetLevel 5 Ili9341.COMMAND;
          Ili9341.LcdWrite [Ili9341.caset] 1 Ili9341.NONE;
          Ili9341.GpioSetLevel 5 Ili9341.DATA;
          Ili9341.LcdWrite [xa; xb; xc; xd] 4 Ili9341.NONE;
          Ili9341.GpioSetLevel 5 Ili9341.COMMAND;
          Ili9341.LcdWrite [Ili9341.raset] 1 Ili9341.NONE;
          Ili9341.GpioSetLevel 5 Ili9341.DATA;
          Ili9341.LcdWrite [ya; yb; yc; yd] 4 Ili9341.NONE;
          Ili9341.GpioSetLevel 5 Ili9341.COMMAND]
    /\ Ili9341.address_of xa xb = 10
    /\ Ili9341.address_of xc xd = 12
    /\ Ili9341.address_of ya yb = 20
    /\ Ili9341.address_of yc yd = 22.
Proof.
  destruct (Ili9341.clear 2 panel 10 20 2 3 0) as [calls|] eqn:Hcalls;
    [|discriminate Hcalls].
  exists calls.
  destruct (clear_window_ignores_height 2 panel 10 20 2 3 0 calls Hcalls)
    as (xa & xb & xc & xd & ya & yb & yc & yd & H); try (cbn; lia).
  exists xa, xb, xc, xd, ya, yb, yc, yd. split; [reflexivity | exact H].
Defined.

Lemma long_key_is_refused_witness :
  (errc_value Nvs.Key_Length_Too_Long <> 0
   /\ (15 < String.length long_key)%nat)
  /\ Nvs.get errc_value storage long_key 7 no_error
     = Some (Nvs.mk_Outcome
               7 (Nvs.make_error_code errc_value Nvs.Key_Length_Too_Long)
               [Nvs.LogError "Key too long, must be <= 15 characters: {}"]).
Proof.
  split; [split; [discriminate | cbn; lia]|].
  apply (long_key_is_refused errc_value storage long_key no_error 7 []).
  - discriminate.
  - cbn. lia.
Defined.

Lemma set_error_code_blocks_witness :
  (Nvs.is_set stale_error = true /\ (String.length "volume" <= 15)%nat)
  /\ Nvs.get errc_value storage "volume" 7 stale_error
     = Some (Nvs.mk_Outcome 7 stale_error []).
Proof.
  split; [split; [reflexivity | cbn; lia]|].
  apply (set_error_code_blocks errc_value storage "volume" stale_error 7 []).
  - reflexivity.
  - cbn. lia.
Defined.

Lemma error_code_is_never_cleared_witness :
  ((forall e, errc_value e <> 0) /\ Nvs.is_set stale_error = true)
  /\ forall r,
       Nvs.commit errc_value storage stale_error = Some r ->
       Nvs.is_set (Nvs.out_ec r) = true.
Proof.
  assert (Hcodes : forall e, errc_value e <> 0)
    by (intros []; discriminate).
  split; [split; [exact Hcodes | reflexivity]|].
  apply (error_code_is_never_cleared errc_value storage "volume" stale_error
                                     7 [] Hcodes eq_refl).
Defined.

Lemma get_succeeds_only_by_reading_witness :
  (forall e, errc_value e <> 0)
  /\ Nvs.get errc_value storage "volume" 7 no_error
     = Some (Nvs.mk_Outcome 1 no_error [Nvs.GetItem "volume"])
  /\ Nvs.is_set no_error = false
  /\ exists hd,
       Nvs.handle storage = Some hd
       /\ Nvs.get_item hd "volume" = (Nvs.ESP_OK, 1).
Proof.
  assert (Hcodes : forall e, errc_value e <> 0)
    by (intros []; discriminate).
  split; [exact Hcodes|]. split; [reflexivity|].
  destruct (get_succeeds_only_by_reading
              errc_value storage "volume" no_error 7
              (Nvs.mk_Outcome 1 no_error [Nvs.GetItem "volume"])
              Hcodes eq_refl)
    as (_ & Hread).
  destruct (Hread eq_refl) as (Hclear & _ & _ & _ & Hhandle).
  split; [exact Hclear | exact Hhandle].
Defined.

Lemma failed_get_string_resizes_value_witness :
  (Nvs.is_set no_error = false
   /\ (String.length "name" <= 15)%nat
   /\ Nvs.handle storage = Some flash
   /\ Nvs.get_item_size flash "name" = (Nvs.ESP_OK, 5%N)
   /\ fst (Nvs.get_string flash "name" 5) = 0x1102
   /\ 0x1102 <> Nvs.ESP_OK)
  /\ exists r,
       Nvs.get_str errc_value storage "name" [x68; x69] no_error = Some r
       /\ Nvs.out_ec r = Nvs.make_error_code errc_value Nvs.Read_NVS_Failed
       /\ Nvs.out_value r = [x68; x69; x00; x00; x00].
Proof.
  split.
  - split; [reflexivity|]. split; [cbn; lia|]. split; [reflexivity|].
    split; [reflexivity|]. split; [reflexivity | discriminate].
  - destruct (failed_get_string_resizes_value
                errc_value storage "name" no_error [x68; x69] flash 5 0x1102)
      as (r & Hr & Hec & Hvalue & _);
      [reflexivity | cbn; lia | reflexivity | reflexivity | reflexivity
       | discriminate |].
    exists r. split; [exact Hr|]. split; [exact Hec | exact Hvalue].
Defined.

Lemma bool_survives_set_and_get_witness :
  (Nvs.is_set no_error = false
   /\ (String.length "muted" <= 15)%nat
   /\ Nvs.set_bool errc_value storage "muted" true no_error
      = Some (Nvs.mk_Outcome tt no_error [Nvs.SetItem "muted" 1])
   /\ Nvs.get_item flash "muted" = (Nvs.ESP_OK, 1))
  /\ Nvs.get_bool errc_value storage "muted" false no_error
     = Some (Nvs.mk_Outcome true no_error [Nvs.GetItem "muted"]).
Proof.
  split.
  - split; [reflexivity|]. split; [cbn; lia|]. split; reflexivity.
  - apply (bool_survives_set_and_get
             errc_value flash flash "muted" no_error true false 1
             (Nvs.mk_Outcome tt no_error [Nvs.SetItem "muted" 1]));
      [reflexivity | cbn; lia | reflexivity | left; reflexivity | reflexivity].
Defined.

Lemma long_namespace_leaves_null_handle_witness :
  let built := Nvs.NVSHandle_ctor errc_value (fun _ => (Some flash, Nvs.ESP_OK))
                                  "a_namespace_of_24_letters" no_error in
  (15 < String.length "a_namespace_of_24_letters")%nat
  /\ Nvs.handle (Nvs.out_value built) = None
  /\ Nvs.out_ec built
     = Nvs.make_error_code errc_value Nvs.Namespace_Length_Too_Long.
Proof.
  split; [cbn; lia|].
  destruct (long_namespace_leaves_null_handle
              errc_value (fun _ => (Some flash, Nvs.ESP_OK))
              "a_namespace_of_24_letters" no_error)
    as (Hnull & Hec & _); [cbn; lia|].
  split; [exact Hnull | exact Hec].
Defined.
